(** * psycopg2 connection objects: a shallow embedding of
      [psycopg/connection_type.c]

    The C functions of the connection type are rendered as computations of a
    small monad over the [connectionObject] struct.  A computation returns an
    [outcome] (a Python value, a raised Python exception, a thread blocked on
    the connection mutex, or C undefined behaviour), the struct as the call
    left it, and the chronological list of the calls it made into libpq, the
    Python runtime and the other compilation units of psycopg. *)

From Stdlib Require Import ZArith List String Ascii Bool Lia DecimalString.
Import ListNotations.

Local Open Scope string_scope.
Local Open Scope list_scope.
Local Open Scope Z_scope.

(** ** Constants and enumerations *)

(** Modelled from the spec: the status constants of [psycopg/connection.h],
    which is not part of the sources.  The ten constants used by
    [connection_type.c] keep their C names; [CONN_STATUS_CLOSED] is the
    remaining value of the spec's status list ([closed]) and is one of the
    values that reach the [default:] branch of the poll switch. *)
Inductive conn_status : Set :=
| CONN_STATUS_SETUP
| CONN_STATUS_ASYNC
| CONN_STATUS_SEND_DATESTYLE
| CONN_STATUS_SENT_DATESTYLE
| CONN_STATUS_SEND_CLIENT_ENCODING
| CONN_STATUS_SENT_CLIENT_ENCODING
| CONN_STATUS_GET_DATESTYLE
| CONN_STATUS_GET_CLIENT_ENCODING
| CONN_STATUS_READY
| CONN_STATUS_BEGIN
| CONN_STATUS_CLOSED.

Definition conn_status_eq_dec (a b : conn_status) : {a = b} + {a <> b}.
Proof. decide equality. Defined.

Definition conn_status_eqb (a b : conn_status) : bool :=
  if conn_status_eq_dec a b then true else false.

(** Modelled from the spec: the phase of the query in flight
    ([async_status], spec [queryPhase]); [connection_setup] only names
    [ASYNC_DONE]. *)
Inductive async_status_t : Set :=
| ASYNC_NONE
| ASYNC_WRITE
| ASYNC_READ
| ASYNC_DONE.

(** libpq's [PostgresPollingStatusType] (libpq-fe.h). *)
Inductive PostgresPollingStatusType : Set :=
| PGRES_POLLING_FAILED
| PGRES_POLLING_READING
| PGRES_POLLING_WRITING
| PGRES_POLLING_OK
| PGRES_POLLING_ACTIVE.

Definition polling_status_value (p : PostgresPollingStatusType) : Z :=
  match p with
  | PGRES_POLLING_FAILED => 0
  | PGRES_POLLING_READING => 1
  | PGRES_POLLING_WRITING => 2
  | PGRES_POLLING_OK => 3
  | PGRES_POLLING_ACTIVE => 4
  end.

(** Modelled from the spec: the answer of the transport about a submitted
    non-blocking query ([queryStatus(handle) -> {needRead, needWrite, done}]). *)
Inductive query_status : Set :=
| needRead
| needWrite
| done.

(** Modelled from the spec: the poll directive [0 = complete]; the
    [PSYCO_POLL_*] macros are defined outside [connection_type.c]. *)
Definition PSYCO_POLL_OK : Z := 0.

(** Modelled from the spec: the poll directive [1 = waitReadable]. *)
Definition PSYCO_POLL_READ : Z := 1.

(** Modelled from the spec: the poll directive [2 = waitWritable]. *)
Definition PSYCO_POLL_WRITE : Z := 2.

(** Python values handed back to the caller. *)
Inductive PyObject : Set :=
| Py_None
| Py_True
| Py_False
| PyInt_FromLong (n : Z)
| PyInstance (id : nat).

(** Python exceptions: the class and the message set before [return NULL]. *)
Inductive exc_class : Set :=
| InterfaceError
| ProgrammingError
| OperationalError
| PyExc_ValueError
| PyExc_TypeError
| PyExc_OverflowError
| PyExc_Other.

Record exn : Set := PyErr_SetString { exc_type : exc_class; exc_msg : string }.

(** The error kinds of the spec, as sets of Python exceptions: the file
    raises [ProgrammingError] for the named cursor on an asynchronous
    connection and [ValueError] / [TypeError] for a bad argument. *)
Definition ConnectionClosed (e : exn) : Prop := exc_type e = InterfaceError.
Definition AsyncModeConflict (e : exn) : Prop := exc_type e = ProgrammingError.
Definition ValidationError (e : exn) : Prop :=
  exc_type e = PyExc_ValueError \/ exc_type e = PyExc_TypeError.

(** ** The connection struct *)

Record connectionObject : Type := mkConnection {
  dsn : string;
  notice_list : list string;
  notifies : list string;
  closed : Z;
  async : Z;
  status : conn_status;
  critical : option string;
  async_cursor : option PyObject;
  async_status : async_status_t;
  pgconn : option Z;
  mark : Z;
  string_types : list (Z * PyObject);
  binary_types : list (Z * PyObject);
  notice_pending : option string;
  encoding : option string;
  datestyle : option string;
  equote : Z;
  isolation_level : Z;
  lock : bool
}.

Definition set_status (v : conn_status) (c : connectionObject) : connectionObject :=
  mkConnection (dsn c) (notice_list c) (notifies c) (closed c) (async c) v
    (critical c) (async_cursor c) (async_status c) (pgconn c) (mark c)
    (string_types c) (binary_types c) (notice_pending c) (encoding c)
    (datestyle c) (equote c) (isolation_level c) (lock c).

Definition set_equote (v : Z) (c : connectionObject) : connectionObject :=
  mkConnection (dsn c) (notice_list c) (notifies c) (closed c) (async c) (status c)
    (critical c) (async_cursor c) (async_status c) (pgconn c) (mark c)
    (string_types c) (binary_types c) (notice_pending c) (encoding c)
    (datestyle c) v (isolation_level c) (lock c).

Definition set_lock (v : bool) (c : connectionObject) : connectionObject :=
  mkConnection (dsn c) (notice_list c) (notifies c) (closed c) (async c) (status c)
    (critical c) (async_cursor c) (async_status c) (pgconn c) (mark c)
    (string_types c) (binary_types c) (notice_pending c) (encoding c)
    (datestyle c) (equote c) (isolation_level c) v.

Definition set_dsn (v : string) (c : connectionObject) : connectionObject :=
  mkConnection v (notice_list c) (notifies c) (closed c) (async c) (status c)
    (critical c) (async_cursor c) (async_status c) (pgconn c) (mark c)
    (string_types c) (binary_types c) (notice_pending c) (encoding c)
    (datestyle c) (equote c) (isolation_level c) (lock c).

Definition set_encoding (v : option string) (c : connectionObject) : connectionObject :=
  mkConnection (dsn c) (notice_list c) (notifies c) (closed c) (async c) (status c)
    (critical c) (async_cursor c) (async_status c) (pgconn c) (mark c)
    (string_types c) (binary_types c) (notice_pending c) v
    (datestyle c) (equote c) (isolation_level c) (lock c).

Definition set_datestyle (v : option string) (c : connectionObject) : connectionObject :=
  mkConnection (dsn c) (notice_list c) (notifies c) (closed c) (async c) (status c)
    (critical c) (async_cursor c) (async_status c) (pgconn c) (mark c)
    (string_types c) (binary_types c) (notice_pending c) (encoding c)
    v (equote c) (isolation_level c) (lock c).

Definition set_notifies (v : list string) (c : connectionObject) : connectionObject :=
  mkConnection (dsn c) (notice_list c) v (closed c) (async c) (status c)
    (critical c) (async_cursor c) (async_status c) (pgconn c) (mark c)
    (string_types c) (binary_types c) (notice_pending c) (encoding c)
    (datestyle c) (equote c) (isolation_level c) (lock c).

Definition set_async_query (cur : option PyObject) (ph : async_status_t)
    (c : connectionObject) : connectionObject :=
  mkConnection (dsn c) (notice_list c) (notifies c) (closed c) (async c) (status c)
    (critical c) cur ph (pgconn c) (mark c)
    (string_types c) (binary_types c) (notice_pending c) (encoding c)
    (datestyle c) (equote c) (isolation_level c) (lock c).

(** ** Calls that leave [connection_type.c] *)

Inductive event : Type :=
| Ev_PyEval_SaveThread
| Ev_PyEval_RestoreThread
| Ev_pthread_mutex_init
| Ev_pthread_mutex_lock
| Ev_pthread_mutex_unlock
| Ev_PQconnectPoll
| Ev_PQerrorMessage
| Ev_conn_get_standard_conforming_strings
| Ev_conn_connect (conninfo : string) (async_flag : Z)
| Ev_conn_commit
| Ev_conn_rollback
| Ev_conn_switch_isolation_level (level : Z)
| Ev_conn_set_client_encoding (enc : string)
| Ev_pq_reset
| Ev_conn_setup
| Ev_conn_close
| Ev_PyObject_CallFunction (factory : nat) (name : option string)
| Ev_lobject_factory (factory : nat) (oid mode new_oid : Z) (new_file : option string)
| Ev_submitNonBlockingQuery (text : string)
| Ev_queryStatus.

(** What the world outside this file answers during one call.  The libpq
    entries are the values the library returns when asked; [queryStatus],
    [queryResult] and [surfaced_notifications] are the transport operations
    the spec lists for a submitted query; the entries for functions of other
    psycopg compilation units ([connection_int.c], [pqpath.c]) give the
    struct as the callee leaves it and its return code;
    [callee_exception] is the Python exception a failing callee has set. *)
Record env : Type := mkEnv {
  PQconnectPoll : PostgresPollingStatusType;
  PQerrorMessage : string;
  conn_get_standard_conforming_strings : Z;
  queryStatus : query_status;
  queryResult : string;
  surfaced_notifications : list string;
  conn_connect : connectionObject -> Z -> connectionObject * Z;
  conn_commit : connectionObject -> connectionObject * Z;
  conn_rollback : connectionObject -> connectionObject * Z;
  conn_switch_isolation_level : connectionObject -> Z -> connectionObject * Z;
  conn_set_client_encoding : connectionObject -> string -> connectionObject * Z;
  pq_reset : connectionObject -> connectionObject * Z;
  conn_setup : connectionObject -> connectionObject * Z;
  conn_close : connectionObject -> connectionObject;
  PyObject_CallFunction : nat -> option PyObject;
  PyObject_IsInstance : PyObject -> Z;
  callee_exception : exn
}.

(** ** The monad of the C functions *)

Inductive outcome (A : Type) : Type :=
| Return (a : A)
| Raise (e : exn)
| Blocked
| Undefined.

Arguments Return {A} a.
Arguments Raise {A} e.
Arguments Blocked {A}.
Arguments Undefined {A}.

Record run (A : Type) : Type := mkRun {
  result : outcome A;
  final : connectionObject;
  calls : list event
}.

Arguments mkRun {A} _ _ _.
Arguments result {A} _.
Arguments final {A} _.
Arguments calls {A} _.

Definition M (A : Type) : Type := connectionObject -> run A.

Definition ret {A} (a : A) : M A := fun c => mkRun (Return a) c [].

Definition raise {A} (e : exn) : M A := fun c => mkRun (Raise e) c [].

Definition undefined {A} : M A := fun c => mkRun Undefined c [].

Definition bind {A B} (m : M A) (k : A -> M B) : M B :=
  fun c =>
    match m c with
    | mkRun (Return a) c' l =>
        match k a c' with
        | mkRun o c'' l' => mkRun o c'' (l ++ l')
        end
    | mkRun (Raise e) c' l => mkRun (Raise e) c' l
    | mkRun Blocked c' l => mkRun Blocked c' l
    | mkRun Undefined c' l => mkRun Undefined c' l
    end.

Notation "x <- m ;; k" := (bind m (fun x => k))
  (at level 61, m at next level, right associativity).
Notation "m ;; k" := (bind m (fun _ => k))
  (at level 61, right associativity).

Definition get : M connectionObject := fun c => mkRun (Return c) c [].
Definition modify (f : connectionObject -> connectionObject) : M unit :=
  fun c => mkRun (Return tt) (f c) [].
Definition emit (e : event) : M unit := fun c => mkRun (Return tt) c [e].

(** A call into another psycopg compilation unit: logged, the struct is
    replaced by the one the callee leaves, the return code is handed back. *)
Definition call (e : event) (f : connectionObject -> connectionObject * Z) : M Z :=
  fun c => let r := f c in mkRun (Return (snd r)) (fst r) [e].

(** [pthread_mutex_lock(&self->lock)]: a held mutex blocks the caller. *)
Definition pthread_mutex_lock : M unit :=
  fun c =>
    if lock c then mkRun Blocked c []
    else mkRun (Return tt) (set_lock true c) [Ev_pthread_mutex_lock].

Definition pthread_mutex_unlock : M unit :=
  fun c => mkRun (Return tt) (set_lock false c) [Ev_pthread_mutex_unlock].

(** The macros of the Python runtime that release the interpreter lock
    around a blocking call ([PyEval_SaveThread]) and take it back
    ([PyEval_RestoreThread]). *)
Definition Py_BEGIN_ALLOW_THREADS : M unit := emit Ev_PyEval_SaveThread.
Definition Py_BLOCK_THREADS : M unit := emit Ev_PyEval_RestoreThread.
Definition Py_END_ALLOW_THREADS : M unit := emit Ev_PyEval_RestoreThread.

(** Modelled from the spec: the guard macro [EXC_IF_CONN_CLOSED] of
    [psycopg/connection.h], which is not part of the sources.  It fails with
    [ConnectionClosed] once [closed] is set; the file itself tests
    [self->closed == 0] for an open connection. *)
Definition EXC_IF_CONN_CLOSED : M unit :=
  self <- get ;;
  if closed self =? 0 then ret tt
  else raise (PyErr_SetString InterfaceError "connection already closed").

(** Modelled from the spec: the guard macro [EXC_IF_CONN_ASYNC] of
    [psycopg/connection.h], which is not part of the sources.  It fails with
    [AsyncModeConflict] on an asynchronous connection, with the flag test
    that [psyco_conn_cursor] uses ([self->async == 1]). *)
Definition EXC_IF_CONN_ASYNC (cmd : string) : M unit :=
  self <- get ;;
  if async self =? 1
  then raise (PyErr_SetString ProgrammingError
                (cmd ++ " cannot be used in asynchronous mode")%string)
  else ret tt.

Definition PyErr_Format_d (cls : exc_class) (fmt : string) (n : Z) : exn :=
  PyErr_SetString cls (fmt ++ NilZero.string_of_int (Z.to_int n))%string.

(** ** The poll driver *)

(** Modelled from the spec: [conn_poll_ready] ([connection_int.c], not part
    of the sources), the readiness check of an established connection.
    With no query pending it returns [complete] immediately.  Otherwise it
    asks the transport for the state of the pending query and maps it to
    [waitReadable] / [waitWritable] / [complete], clearing the pending query
    and its phase on completion; notifications surfaced during the check are
    appended to the queue. *)
Definition conn_poll_ready (w : env) : M PyObject :=
  self <- get ;;
  match async_cursor self with
  | None => ret (PyInt_FromLong PSYCO_POLL_OK)
  | Some _ =>
      emit Ev_queryStatus ;;
      modify (fun c => set_notifies (notifies c ++ surfaced_notifications w) c) ;;
      match queryStatus w with
      | needRead => ret (PyInt_FromLong PSYCO_POLL_READ)
      | needWrite => ret (PyInt_FromLong PSYCO_POLL_WRITE)
      | done =>
          modify (set_async_query None ASYNC_NONE) ;;
          ret (PyInt_FromLong PSYCO_POLL_OK)
      end
  end.

(** Modelled from the spec: [conn_poll_green] ([connection_int.c], not part
    of the sources).  On a synchronous connection [poll()] delegates to the
    readiness check. *)
Definition conn_poll_green (w : env) : M PyObject := conn_poll_ready w.

(** Modelled from the spec: [conn_poll_connect_send] ([connection_int.c], not
    part of the sources).  From [sendingParam[k]] it issues the discovery
    query of parameter [k] and moves to [sentParam[k]]; from [sentParam[k]]
    it moves on to [fetchingParam[k]] and asks the caller to wait for
    readability, unless the transport still has part of the query to write
    (the dispatch comment of [psyco_conn_poll_async]: these states wait for
    the socket to become writable to send the rest of the query).  The
    dispatch enters it in these four statuses only. *)
Definition conn_poll_connect_send (w : env) : M PyObject :=
  self <- get ;;
  match status self with
  | CONN_STATUS_SEND_DATESTYLE =>
      emit (Ev_submitNonBlockingQuery "datestyle") ;;
      modify (set_status CONN_STATUS_SENT_DATESTYLE) ;;
      ret (PyInt_FromLong PSYCO_POLL_WRITE)
  | CONN_STATUS_SEND_CLIENT_ENCODING =>
      emit (Ev_submitNonBlockingQuery "client_encoding") ;;
      modify (set_status CONN_STATUS_SENT_CLIENT_ENCODING) ;;
      ret (PyInt_FromLong PSYCO_POLL_WRITE)
  | CONN_STATUS_SENT_DATESTYLE =>
      emit Ev_queryStatus ;;
      match queryStatus w with
      | needWrite => ret (PyInt_FromLong PSYCO_POLL_WRITE)
      | _ =>
          modify (set_status CONN_STATUS_GET_DATESTYLE) ;;
          ret (PyInt_FromLong PSYCO_POLL_READ)
      end
  | CONN_STATUS_SENT_CLIENT_ENCODING =>
      emit Ev_queryStatus ;;
      match queryStatus w with
      | needWrite => ret (PyInt_FromLong PSYCO_POLL_WRITE)
      | _ =>
          modify (set_status CONN_STATUS_GET_CLIENT_ENCODING) ;;
          ret (PyInt_FromLong PSYCO_POLL_READ)
      end
  | _ =>
      raise (PyErr_SetString OperationalError
               "not in asynchronous connection attempt")
  end.

(** Modelled from the spec: [conn_poll_connect_fetch] ([connection_int.c],
    not part of the sources).  From [fetchingParam[k]] the caller waits for
    readability until the result of the discovery query is fully available;
    on result the value is stored and the machine advances to the next
    parameter (date style, then client encoding) or to [ready] after the
    last one.  The dispatch enters it in these two statuses only. *)
Definition conn_poll_connect_fetch (w : env) : M PyObject :=
  self <- get ;;
  match status self with
  | CONN_STATUS_GET_DATESTYLE =>
      emit Ev_queryStatus ;;
      match queryStatus w with
      | done =>
          modify (set_datestyle (Some (queryResult w))) ;;
          modify (set_status CONN_STATUS_SEND_CLIENT_ENCODING) ;;
          ret (PyInt_FromLong PSYCO_POLL_WRITE)
      | _ => ret (PyInt_FromLong PSYCO_POLL_READ)
      end
  | CONN_STATUS_GET_CLIENT_ENCODING =>
      emit Ev_queryStatus ;;
      match queryStatus w with
      | done =>
          modify (set_encoding (Some (queryResult w))) ;;
          modify (set_status CONN_STATUS_READY) ;;
          ret (PyInt_FromLong PSYCO_POLL_OK)
      | _ => ret (PyInt_FromLong PSYCO_POLL_READ)
      end
  | _ =>
      raise (PyErr_SetString OperationalError
               "not in asynchronous connection attempt")
  end.

(** The tail of [psyco_conn_poll_async], reached by [break] from the
    [CONN_STATUS_ASYNC] case: one guarded step of [PQconnectPoll]. *)
Definition poll_connect_step (w : env) : M PyObject :=
  Py_BEGIN_ALLOW_THREADS ;;
  pthread_mutex_lock ;;
  emit Ev_PQconnectPoll ;;
  let poll_status := PQconnectPoll w in
  match poll_status with
  | PGRES_POLLING_READING =>
      pthread_mutex_unlock ;;
      Py_BLOCK_THREADS ;;
      ret (PyInt_FromLong PSYCO_POLL_READ)
  | PGRES_POLLING_WRITING =>
      pthread_mutex_unlock ;;
      Py_BLOCK_THREADS ;;
      ret (PyInt_FromLong PSYCO_POLL_WRITE)
  | PGRES_POLLING_FAILED =>
      pthread_mutex_unlock ;;
      Py_BLOCK_THREADS ;;
      emit Ev_PQerrorMessage ;;
      raise (PyErr_SetString OperationalError (PQerrorMessage w))
  | PGRES_POLLING_OK =>
      (* the connection is built *)
      emit Ev_conn_get_standard_conforming_strings ;;
      modify (set_equote (conn_get_standard_conforming_strings w)) ;;
      pthread_mutex_unlock ;;
      Py_END_ALLOW_THREADS ;;
      modify (set_status CONN_STATUS_SEND_DATESTYLE) ;;
      ret (PyInt_FromLong PSYCO_POLL_WRITE)
  | PGRES_POLLING_ACTIVE =>
      (* poll_status != PGRES_POLLING_OK *)
      pthread_mutex_unlock ;;
      Py_BLOCK_THREADS ;;
      raise (PyErr_Format_d OperationalError
               "unexpected result from PQconnectPoll: "
               (polling_status_value poll_status))
  end.

Definition psyco_conn_poll_async (w : env) : M PyObject :=
  self <- get ;;
  match status self with
  | CONN_STATUS_SETUP =>
      modify (set_status CONN_STATUS_ASYNC) ;;
      ret (PyInt_FromLong PSYCO_POLL_WRITE)
  | CONN_STATUS_SEND_DATESTYLE
  | CONN_STATUS_SENT_DATESTYLE
  | CONN_STATUS_SEND_CLIENT_ENCODING
  | CONN_STATUS_SENT_CLIENT_ENCODING =>
      conn_poll_connect_send w
  | CONN_STATUS_GET_DATESTYLE
  | CONN_STATUS_GET_CLIENT_ENCODING =>
      conn_poll_connect_fetch w
  | CONN_STATUS_ASYNC =>
      poll_connect_step w
  | CONN_STATUS_READY
  | CONN_STATUS_BEGIN =>
      conn_poll_ready w
  | _ =>
      raise (PyErr_SetString OperationalError
               "not in asynchronous connection attempt")
  end.

Definition psyco_conn_poll (w : env) : M PyObject :=
  EXC_IF_CONN_CLOSED ;;
  self <- get ;;
  if negb (async self =? 0) then psyco_conn_poll_async w
  else conn_poll_green w.

(** [isexecuting()]: no guard macro, no side effect. *)
Definition psyco_conn_isexecuting (self : connectionObject) : PyObject :=
  if async self =? 0 then Py_False
  else if negb (conn_status_eqb (status self) CONN_STATUS_READY) then Py_True
  else match async_cursor self with
       | Some _ => Py_True
       | None => Py_False
       end.

(** ** Argument parsing *)

(** The limits of a C [int]. *)
Definition INT_MIN : Z := -2147483648.
Definition INT_MAX : Z := 2147483647.

(** The converter of [PyArg_ParseTuple] for the format 'i', on a Python
    integer [n]: the C [int] it stores, or the [OverflowError] it sets
    when [n] does not fit one (the wording is CPython's for a value that
    fits a C [long]; only the class is used below). *)
Definition convert_i (n : Z) : exn + Z :=
  if n >? INT_MAX
  then inl (PyErr_SetString PyExc_OverflowError
              "signed integer is greater than maximum")
  else if n <? INT_MIN
  then inl (PyErr_SetString PyExc_OverflowError
              "signed integer is less than minimum")
  else inr n.

(** [if (!PyArg_ParseTuple(...)) return NULL;]: a failed conversion leaves
    its exception set and the method returns at once. *)
Definition PyArg {A} (converted : exn + A) : M A :=
  match converted with
  | inl e => raise e
  | inr v => ret v
  end.

(** ** DBAPI methods *)

Definition cursorType : nat := 0%nat.
Definition lobjectType : nat := 1%nat.

Definition is_some {A} (o : option A) : bool :=
  match o with Some _ => true | None => false end.

(** [psyco_conn_cursor] from line 68 on, on the values that
    [PyArg_ParseTupleAndKeywords] has stored in [name] and [factory];
    [psyco_conn_cursor_args] below is the whole method, with the parse in
    front. *)
Definition psyco_conn_cursor (w : env) (name : option string)
    (factory : option nat) : M PyObject :=
  EXC_IF_CONN_CLOSED ;;
  self <- get ;;
  if negb (conn_status_eqb (status self) CONN_STATUS_READY) &&
     negb (conn_status_eqb (status self) CONN_STATUS_BEGIN)
  then raise (PyErr_SetString OperationalError
                "asynchronous connection attempt underway")
  else if is_some name && (async self =? 1)
  then raise (PyErr_SetString ProgrammingError
                "asynchronous connections cannot produce named cursors")
  else
    let factory := match factory with None => cursorType | Some f => f end in
    emit (Ev_PyObject_CallFunction factory name) ;;
    match PyObject_CallFunction w factory with
    | None => raise (callee_exception w)
    | Some obj =>
        if PyObject_IsInstance w obj =? 0
        then raise (PyErr_SetString PyExc_TypeError
                      "cursor factory must be subclass of psycopg2._psycopg.cursor")
        else ret obj
    end.

Definition psyco_conn_close (w : env) : M PyObject :=
  EXC_IF_CONN_CLOSED ;;
  emit Ev_conn_close ;;
  modify (conn_close w) ;;
  ret Py_None.

Definition psyco_conn_commit (w : env) : M PyObject :=
  EXC_IF_CONN_CLOSED ;;
  EXC_IF_CONN_ASYNC "commit" ;;
  res <- call Ev_conn_commit (conn_commit w) ;;
  if res <? 0 then raise (callee_exception w)
  else ret Py_None.

Definition psyco_conn_rollback (w : env) : M PyObject :=
  EXC_IF_CONN_CLOSED ;;
  EXC_IF_CONN_ASYNC "rollback" ;;
  res <- call Ev_conn_rollback (conn_rollback w) ;;
  if res <? 0 then raise (callee_exception w)
  else ret Py_None.

(** [arg] is the Python integer passed; [level] the C [int] that
    [PyArg_ParseTuple(args, "i", &level)] stores. *)
Definition psyco_conn_set_isolation_level (w : env) (arg : Z) : M PyObject :=
  EXC_IF_CONN_CLOSED ;;
  EXC_IF_CONN_ASYNC "set_isolation_level" ;;
  level <- PyArg (convert_i arg) ;;
  if (level <? 0) || (level >? 2)
  then raise (PyErr_SetString PyExc_ValueError
                "isolation level out of bounds (0,3)")
  else
    res <- call (Ev_conn_switch_isolation_level level)
                (fun c => conn_switch_isolation_level w c level) ;;
    if res <? 0
    then emit Ev_PQerrorMessage ;;
         raise (PyErr_SetString OperationalError (PQerrorMessage w))
    else ret Py_None.

(** *** [set_client_encoding]: the normalisation loop *)

Definition NUL : ascii := "000"%char.

(** [toupper] of <ctype.h> in the C locale. *)
Definition toupper (c : ascii) : ascii :=
  let n := nat_of_ascii c in
  if ((97 <=? n) && (n <=? 122))%nat then ascii_of_nat (n - 32) else c.

Definition is_separator (c : ascii) : bool :=
  (c =? "_")%char || (c =? "-")%char.

(** [buffer[j] = v]; the loop never stores outside the allocated block. *)
Fixpoint store (j : nat) (v : ascii) (buffer : list ascii) : list ascii :=
  match buffer, j with
  | [], _ => []
  | _ :: b, O => v :: b
  | c :: b, S j' => c :: store j' v b
  end.

(** The C string held by a block of memory: the bytes before the first NUL. *)
Fixpoint c_str (mem : list ascii) : list ascii :=
  match mem with
  | [] => []
  | c :: m => if (c =? NUL)%char then [] else c :: c_str m
  end.

(** The body of [for (i=j=0 ; i < strlen(enc) ; i++)]: [rest] is
    [enc[i..]], [j] the write index into [buffer]. *)
Fixpoint encoding_loop (rest : list ascii) (j : nat) (buffer : list ascii)
  : nat * list ascii :=
  match rest with
  | [] => (j, buffer)
  | c :: rest' =>
      if is_separator c then encoding_loop rest' j buffer
      else encoding_loop rest' (S j) (store j (toupper c) buffer)
  end.

(** [PyMem_Malloc(n)]: a block of [n] bytes of no particular content. *)
Definition PyMem_Malloc (n : nat) : list ascii := repeat "255"%char n.

Definition encoding_buffer (enc : string) : list ascii :=
  let e := list_ascii_of_string enc in
  let buffer := PyMem_Malloc (List.length e + 1) in
  let '(j, buffer) := encoding_loop e 0%nat buffer in
  store j NUL buffer.

Definition psyco_conn_set_client_encoding (w : env) (enc : string) : M PyObject :=
  EXC_IF_CONN_CLOSED ;;
  EXC_IF_CONN_ASYNC "set_client_encoding" ;;
  let buffer := string_of_list_ascii (c_str (encoding_buffer enc)) in
  res <- call (Ev_conn_set_client_encoding buffer)
              (fun c => conn_set_client_encoding w c buffer) ;;
  if res =? 0 then ret Py_None
  else raise (callee_exception w).

(** *** [lobject] *)

Definition INV_WRITE : Z := 131072.
Definition INV_READ : Z := 262144.

Definition lobject_mode (smode : option string) : option Z :=
  match smode with
  | None => Some 0
  | Some s =>
      if String.prefix "rw" s then Some (INV_READ + INV_WRITE)
      else match s with
           | String "r" _ => Some INV_READ
           | String "w" _ => Some INV_WRITE
           | String "n" _ => Some (-1)
           | _ => None
           end
  end.

(** [psyco_conn_lobject] from line 315 on, on the values that
    [PyArg_ParseTupleAndKeywords] has stored; [psyco_conn_lobject_args]
    below is the whole method, with the parse in front. *)
Definition psyco_conn_lobject (w : env) (oid : Z) (smode : option string)
    (new_oid : Z) (new_file : option string) (factory : option nat) : M PyObject :=
  EXC_IF_CONN_CLOSED ;;
  EXC_IF_CONN_ASYNC "lobject" ;;
  match lobject_mode smode with
  | None => raise (PyErr_SetString PyExc_TypeError
                     "mode should be one of 'r', 'w' or 'rw'")
  | Some mode =>
      let factory := match factory with None => lobjectType | Some f => f end in
      emit (Ev_lobject_factory factory oid mode new_oid new_file) ;;
      match PyObject_CallFunction w factory with
      | None => raise (callee_exception w)
      | Some obj =>
          if PyObject_IsInstance w obj =? 0
          then raise (PyErr_SetString PyExc_TypeError
                        "lobject factory must be subclass of psycopg2._psycopg.lobject")
          else ret obj
      end
  end.

Definition psyco_conn_reset (w : env) : M PyObject :=
  EXC_IF_CONN_CLOSED ;;
  EXC_IF_CONN_ASYNC "reset" ;;
  r <- call Ev_pq_reset (pq_reset w) ;;
  if r <? 0 then raise (callee_exception w)
  else
    res <- call Ev_conn_setup (conn_setup w) ;;
    if res <? 0 then raise (callee_exception w)
    else ret Py_None.

(** ** Initialisation *)

(** [strstr(haystack, needle)]: the offset of the first occurrence. *)
Fixpoint strstr (haystack needle : string) : option nat :=
  if String.prefix needle haystack then Some 0%nat
  else match haystack with
       | EmptyString => None
       | String _ h => option_map S (strstr h needle)
       end.

Fixpoint string_take (n : nat) (s : string) : string :=
  match n, s with
  | S n', String c s' => String c (string_take n' s')
  | _, _ => EmptyString
  end.

Fixpoint string_drop (n : nat) (s : string) : string :=
  match n, s with
  | S n', String _ s' => string_drop n' s'
  | _, _ => s
  end.

(** The loop [for (... ; *pos != '\0' && *pos != ' '; pos++) *pos = 'x';]
    run on the bytes from [pos] to the terminator. *)
Fixpoint obfuscate (p : string) : string :=
  match p with
  | EmptyString => EmptyString
  | String c p' =>
      if (c =? NUL)%char || (c =? " ")%char then p
      else String "x" (obfuscate p')
  end.

(** The obfuscation block of [connection_setup].  The copy made by [strdup]
    holds [strlen(dsn)+1] bytes, so [pos+9] may point at the terminator at
    most: when the first "password" ends the string, [pos+9] is one past
    the block and the read [*pos] is undefined ([None]). *)
Definition obfuscate_password (d : string) : option string :=
  match strstr d "password" with
  | None => Some d
  | Some pos =>
      if (pos + 9 <=? String.length d)%nat
      then Some (string_take (pos + 9) d ++ obfuscate (string_drop (pos + 9) d))%string
      else None
  end.

Definition connection_setup (w : env) (dsn0 : string) (async0 : Z) : M Z :=
  modify (fun c =>
    mkConnection dsn0 [] [] 0 async0 CONN_STATUS_SETUP None None ASYNC_DONE
      None 0 [] [] None None (datestyle c) (equote c) (isolation_level c)
      (lock c)) ;;
  emit Ev_pthread_mutex_init ;;
  modify (set_lock false) ;;
  self <- get ;;
  r <- call (Ev_conn_connect (dsn self) async0)
            (fun c => conn_connect w c async0) ;;
  let res := if negb (r =? 0) then -1 else 0 in
  (* here we obfuscate the password even if there was a connection error *)
  self <- get ;;
  match obfuscate_password (dsn self) with
  | None => undefined
  | Some d => modify (set_dsn d) ;; ret res
  end.

(** ** Drivers *)

(** Repeated [poll()] calls, one answer of the outside world per call; the
    outcomes in order and the struct after the last call. *)
Fixpoint poll_repeatedly (ws : list env) (self : connectionObject)
  : list (outcome PyObject) * connectionObject :=
  match ws with
  | [] => ([], self)
  | w :: ws' =>
      let r := psyco_conn_poll w self in
      let rest := poll_repeatedly ws' (final r) in
      (result r :: fst rest, snd rest)
  end.

Definition complete : outcome PyObject := Return (PyInt_FromLong PSYCO_POLL_OK).
Definition waitReadable : outcome PyObject := Return (PyInt_FromLong PSYCO_POLL_READ).
Definition waitWritable : outcome PyObject := Return (PyInt_FromLong PSYCO_POLL_WRITE).

(** One [poll()] call as the caller sees it: the status before, what the
    call gave back, the status after. *)
Record poll_step : Type := mkStep {
  before : conn_status;
  directive : outcome PyObject;
  after : conn_status
}.

Definition keeps_waiting (o : outcome PyObject) : bool :=
  match o with
  | Return (PyInt_FromLong n) => (n =? PSYCO_POLL_READ) || (n =? PSYCO_POLL_WRITE)
  | _ => false
  end.

Definition is_complete (o : outcome PyObject) : bool :=
  match o with
  | Return (PyInt_FromLong n) => n =? PSYCO_POLL_OK
  | _ => false
  end.

(** The event loop of a caller: call [poll()], wait for the socket as
    directed and call again, until [poll()] answers [complete] or fails.
    [ws] gives the answers of the outside world, one entry per call; the
    loop gives up when they are exhausted.  The result is the list of steps
    and, when the loop ended on [complete], the established connection. *)
Fixpoint wait_loop (ws : list env) (self : connectionObject)
  : list poll_step * option connectionObject :=
  match ws with
  | [] => ([], None)
  | w :: ws' =>
      let r := psyco_conn_poll w self in
      let st := mkStep (status self) (result r) (status (final r)) in
      if keeps_waiting (result r) then
        let rest := wait_loop ws' (final r) in
        (st :: fst rest, snd rest)
      else
        ([st], if is_complete (result r) then Some (final r) else None)
  end.

(** ** The order of the handshake *)

Definition handshake_sequence : list conn_status :=
  [CONN_STATUS_SETUP; CONN_STATUS_ASYNC;
   CONN_STATUS_SEND_DATESTYLE; CONN_STATUS_SENT_DATESTYLE;
   CONN_STATUS_GET_DATESTYLE;
   CONN_STATUS_SEND_CLIENT_ENCODING; CONN_STATUS_SENT_CLIENT_ENCODING;
   CONN_STATUS_GET_CLIENT_ENCODING; CONN_STATUS_READY].

(** A list of statuses with the repetitions of one status in a row merged. *)
Fixpoint compress (l : list conn_status) : list conn_status :=
  match l with
  | [] => []
  | a :: l' =>
      match l' with
      | [] => [a]
      | b :: _ => if conn_status_eqb a b then compress l' else a :: compress l'
      end
  end.

(** The statuses a run went through, starting from [start]. *)
Definition visited (start : conn_status) (steps : list poll_step)
  : list conn_status :=
  compress (start :: map after steps).

(** The position of a status in the handshake. *)
Definition rank (s : conn_status) : nat :=
  match s with
  | CONN_STATUS_SETUP => 0
  | CONN_STATUS_ASYNC => 1
  | CONN_STATUS_SEND_DATESTYLE => 2
  | CONN_STATUS_SENT_DATESTYLE => 3
  | CONN_STATUS_GET_DATESTYLE => 4
  | CONN_STATUS_SEND_CLIENT_ENCODING => 5
  | CONN_STATUS_SENT_CLIENT_ENCODING => 6
  | CONN_STATUS_GET_CLIENT_ENCODING => 7
  | CONN_STATUS_READY => 8
  | CONN_STATUS_BEGIN => 9
  | CONN_STATUS_CLOSED => 10
  end%nat.

Definition in_handshake (s : conn_status) : bool := (rank s <? 8)%nat.

Definition next_status (s : conn_status) : conn_status :=
  nth (S (rank s)) handshake_sequence s.

(** What [poll()] gives back on the call that enters a status: the caller
    waits for writability before sending, for readability before fetching,
    and is told [complete] when the connection is ready. *)
Definition entering (s : conn_status) : outcome PyObject :=
  match s with
  | CONN_STATUS_GET_DATESTYLE | CONN_STATUS_GET_CLIENT_ENCODING => waitReadable
  | CONN_STATUS_READY => complete
  | _ => waitWritable
  end.

(** ** The guard discipline *)

(** A sequence of calls respects the connection mutex when every lock finds
    it free, every unlock finds it held, [PQconnectPoll] runs only while it
    is held, and it is free at the end.  [held] is the state of the mutex
    before the first call. *)
Fixpoint guard_discipline (held : bool) (l : list event) : bool :=
  match l with
  | [] => negb held
  | Ev_pthread_mutex_lock :: l' => negb held && guard_discipline true l'
  | Ev_pthread_mutex_unlock :: l' => held && guard_discipline false l'
  | Ev_PQconnectPoll :: l' => held && guard_discipline held l'
  | _ :: l' => guard_discipline held l'
  end.

(** ** Encoding names, as the specification words them *)

(** The content of a C string: no NUL before the terminator. *)
Definition c_string (s : string) : Prop := ~ In NUL (list_ascii_of_string s).

(** Delete every '-' and '_', upper-case what remains. *)
Definition normalized_chars (l : list ascii) : list ascii :=
  map toupper (filter (fun c => negb (is_separator c)) l).

Definition normalize_encoding_name (enc : string) : string :=
  string_of_list_ascii (normalized_chars (list_ascii_of_string enc)).

Definition is_lower (c : ascii) : bool :=
  ((97 <=? nat_of_ascii c) && (nat_of_ascii c <=? 122))%nat.

(** Two characters that are equal or the two cases of one letter. *)
Inductive same_letter : ascii -> ascii -> Prop :=
| same_char (c : ascii) : same_letter c c
| lower_upper (c : ascii) : is_lower c = true -> same_letter c (toupper c)
| upper_lower (c : ascii) : is_lower c = true -> same_letter (toupper c) c.

(** Two names that differ only in the case of letters and in '-' and '_'
    characters, present in one and absent or different in the other. *)
Inductive similar_names : list ascii -> list ascii -> Prop :=
| similar_nil : similar_names [] []
| similar_cons (c d : ascii) (a b : list ascii) :
    same_letter c d -> similar_names a b -> similar_names (c :: a) (d :: b)
| similar_skip_left (c : ascii) (a b : list ascii) :
    is_separator c = true -> similar_names a b -> similar_names (c :: a) b
| similar_skip_right (c : ascii) (a b : list ascii) :
    is_separator c = true -> similar_names a b -> similar_names a (c :: b).

(** ** Connection strings *)

(** As many masking characters as [value] has characters. *)
Fixpoint mask (value : string) : string :=
  match value with
  | EmptyString => EmptyString
  | String _ v => String "x" (mask v)
  end.

(** No character of [value] ends the masking loop. *)
Fixpoint plain_value (value : string) : bool :=
  match value with
  | EmptyString => true
  | String c v => negb ((c =? NUL)%char || (c =? " ")%char) && plain_value v
  end.

(** [rest] is empty or starts with the delimiter. *)
Definition delimited (rest : string) : bool :=
  match rest with
  | EmptyString => true
  | String c _ => (c =? " ")%char
  end.

(** [needle] occurs in [s]. *)
Definition contains (s needle : string) : bool := is_some (strstr s needle).

(** ** Sample collaborators and connections, for running the model *)

Definition blank : connectionObject :=
  mkConnection "" [] [] 0 0 CONN_STATUS_SETUP None None ASYNC_NONE None 0
    [] [] None None None 0 0 false.

(** Collaborators that leave the struct alone and return [rc]; the
    transport answers [p] to [PQconnectPoll] and [q] about the query. *)
Definition sample_env (p : PostgresPollingStatusType) (q : query_status)
    (rc : Z) : env :=
  mkEnv p "could not connect to server" 1 q "ISO" []
    (fun c _ => (c, rc)) (fun c => (c, rc)) (fun c => (c, rc))
    (fun c _ => (c, rc)) (fun c _ => (c, rc)) (fun c => (c, rc))
    (fun c => (c, rc)) (fun c => c)
    (fun f => Some (PyInstance f)) (fun _ => 1)
    (PyErr_SetString OperationalError "collaborator failed").

(** A transport that answers at once and collaborators that succeed. *)
Definition quiet : env := sample_env PGRES_POLLING_OK done 0.

(** A transport whose handshake fails. *)
Definition failing : env := sample_env PGRES_POLLING_FAILED needRead (-1).

(** An asynchronous connection as [connection_setup] leaves it. *)
Definition fresh_async : connectionObject :=
  final (connection_setup quiet "dbname=test user=bob" 1 blank).

(** An asynchronous connection in the middle of the [PQconnectPoll] loop. *)
Definition connecting : connectionObject :=
  set_status CONN_STATUS_ASYNC fresh_async.

(** An asynchronous connection whose handshake is over. *)
Definition ready_connection : connectionObject :=
  set_status CONN_STATUS_READY fresh_async.

(** A synchronous connection in the ready state. *)
Definition sync_ready : connectionObject :=
  set_status CONN_STATUS_READY
    (final (connection_setup quiet "dbname=test user=bob" 0 blank)).

(** A closed connection that was in the middle of the handshake. *)
Definition closed_connection : connectionObject :=
  mkConnection "dbname=test" [] [] 1 1 CONN_STATUS_SEND_DATESTYLE None None
    ASYNC_DONE None 0 [] [] None None None 0 0 false.

(** A transport that answers as a server does during a handshake that goes
    through: one entry per [poll()] call. *)
Definition smooth_handshake : list env :=
  [quiet;
   sample_env PGRES_POLLING_WRITING needRead 0;
   sample_env PGRES_POLLING_READING needRead 0;
   sample_env PGRES_POLLING_OK needRead 0;
   quiet;
   sample_env PGRES_POLLING_OK needWrite 0;
   sample_env PGRES_POLLING_OK needRead 0;
   sample_env PGRES_POLLING_OK needRead 0;
   sample_env PGRES_POLLING_OK done 0;
   quiet; quiet;
   sample_env PGRES_POLLING_OK needRead 0;
   quiet; quiet].

(** The connection that run establishes. *)
Definition established_sample : connectionObject :=
  match snd (wait_loop smooth_handshake fresh_async) with
  | Some c => c
  | None => blank
  end.

(** A well-formed connection string whose database is called "passwords". *)
Definition dsn_passwords : string :=
  "dbname=passwords user=bob password=secret".

(** ** The remaining methods of the connection type *)

(** The read-only questions the getters put to libpq about [self->pgconn];
    they read the [PGconn] struct and do no I/O. *)
Record libpq_info : Type := mkInfo {
  PQtransactionStatus : Z;
  PQparameterStatus : string -> option string;
  PQbackendPID : Z;
  PQsocket : Z
}.

(** What [get_parameter_status] hands back: [None] or a Python string. *)
Inductive PyValue : Type :=
| PyObj (o : PyObject)
| PyString_FromString (s : string).

Definition psyco_conn_get_transaction_status (q : libpq_info) : M PyObject :=
  EXC_IF_CONN_CLOSED ;;
  ret (PyInt_FromLong (PQtransactionStatus q)).

Definition psyco_conn_get_parameter_status (q : libpq_info) (param : string)
  : M PyValue :=
  EXC_IF_CONN_CLOSED ;;
  match PQparameterStatus q param with
  | None => ret (PyObj Py_None)
  | Some val => ret (PyString_FromString val)
  end.

Definition psyco_conn_get_backend_pid (q : libpq_info) : M PyObject :=
  EXC_IF_CONN_CLOSED ;;
  ret (PyInt_FromLong (PQbackendPID q)).

Definition psyco_conn_fileno (q : libpq_info) : M PyObject :=
  EXC_IF_CONN_CLOSED ;;
  let socket := PQsocket q in
  ret (PyInt_FromLong socket).

(** *** Deallocation *)

(** What [connection_dealloc] calls, in order. *)
Inductive dealloc_call : Type :=
| D_PyObject_GC_UnTrack
| D_conn_close
| D_conn_notice_clean
| D_free_dsn
| D_free_encoding
| D_free_critical
| D_Py_CLEAR (field : string)
| D_pthread_mutex_destroy
| D_tp_free.

(** [connection_dealloc].  [conn_notice_clean] ([connection_int.c]) is
    given as the struct it leaves.  The struct of the model always holds a
    [dsn] (it has been through [connection_setup]), so [free(self->dsn)]
    runs; [encoding] and [critical] are freed when they are not NULL. *)
Definition connection_dealloc (w : env)
    (conn_notice_clean : connectionObject -> connectionObject)
    (self : connectionObject) : list dealloc_call :=
  let after_close := if closed self =? 0 then conn_close w self else self in
  let cleaned := conn_notice_clean after_close in
  [D_PyObject_GC_UnTrack]
  ++ (if closed self =? 0 then [D_conn_close] else [])
  ++ [D_conn_notice_clean; D_free_dsn]
  ++ (if is_some (encoding cleaned) then [D_free_encoding] else [])
  ++ (if is_some (critical cleaned) then [D_free_critical] else [])
  ++ [D_Py_CLEAR "async_cursor"; D_Py_CLEAR "notice_list";
      D_Py_CLEAR "notice_filter"; D_Py_CLEAR "notifies";
      D_Py_CLEAR "string_types"; D_Py_CLEAR "binary_types";
      D_pthread_mutex_destroy; D_tp_free].

Definition is_D_conn_close (d : dealloc_call) : bool :=
  match d with D_conn_close => true | _ => false end.

Definition is_Ev_conn_close (e : event) : bool :=
  match e with Ev_conn_close => true | _ => false end.

(** ** The interpreter lock *)

(** A sequence of calls respects the interpreter lock when releases and
    re-acquisitions alternate, the connection mutex is only waited for
    while the interpreter lock is released, [PQerrorMessage] is read for
    the exception only once it is held again, and it is held at the end.
    [released] is its state before the first call. *)
Fixpoint gil_discipline (released : bool) (l : list event) : bool :=
  match l with
  | [] => negb released
  | Ev_PyEval_SaveThread :: l' => negb released && gil_discipline true l'
  | Ev_PyEval_RestoreThread :: l' => released && gil_discipline false l'
  | Ev_pthread_mutex_lock :: l' => released && gil_discipline released l'
  | Ev_PQerrorMessage :: l' => negb released && gil_discipline released l'
  | _ :: l' => gil_discipline released l'
  end.

(** ** Masked copies *)

(** [d'] is [d] with some characters replaced by 'x': same length, and at
    every position the same character or an 'x'. *)
Fixpoint masked_copy (d d' : string) : bool :=
  match d, d' with
  | EmptyString, EmptyString => true
  | String c s, String c' s' =>
      ((c' =? c)%char || (c' =? "x")%char) && masked_copy s s'
  | _, _ => false
  end.

(** ** More sample collaborators *)

Definition set_closed (v : Z) (c : connectionObject) : connectionObject :=
  mkConnection (dsn c) (notice_list c) (notifies c) v (async c) (status c)
    (critical c) (async_cursor c) (async_status c) (pgconn c) (mark c)
    (string_types c) (binary_types c) (notice_pending c) (encoding c)
    (datestyle c) (equote c) (isolation_level c) (lock c).

(** Collaborators whose [conn_close] marks the connection closed. *)
Definition closing : env :=
  mkEnv PGRES_POLLING_OK "could not connect to server" 1 done "ISO" []
    (fun c _ => (c, 0)) (fun c => (c, 0)) (fun c => (c, 0))
    (fun c _ => (c, 0)) (fun c _ => (c, 0)) (fun c => (c, 0))
    (fun c => (c, 0)) (set_closed 1)
    (fun f => Some (PyInstance f)) (fun _ => 1)
    (PyErr_SetString OperationalError "collaborator failed").

(** Collaborators whose [pq_reset] fails. *)
Definition reset_failing : env :=
  mkEnv PGRES_POLLING_OK "could not connect to server" 1 done "ISO" []
    (fun c _ => (c, 0)) (fun c => (c, 0)) (fun c => (c, 0))
    (fun c _ => (c, 0)) (fun c _ => (c, 0)) (fun c => (c, -1))
    (fun c => (c, 0)) (fun c => c)
    (fun f => Some (PyInstance f)) (fun _ => 1)
    (PyErr_SetString OperationalError "collaborator failed").

Definition sample_info : libpq_info :=
  mkInfo 0
    (fun p => if (p =? "server_version")%string then Some "8.4.2" else None)
    4242 7.

(** A connection whose mutex another thread holds. *)
Definition contended : connectionObject := set_lock true connecting.

(** A run that was refused because the connection is closed: it raised
    [ConnectionClosed], called nothing and left the struct [self] as it was. *)
Definition refused_closed {A} (self : connectionObject) (r : run A) : Prop :=
  exists e, r = mkRun (Raise e) self [] /\ ConnectionClosed e.

(** The factory a call uses: the one given, or the type's own. *)
Definition chosen_factory (default : nat) (factory : option nat) : nat :=
  match factory with None => default | Some f => f end.

(** [smode] starts with one of the letters the mode parser knows. *)
Definition mode_letter (smode : string) : bool :=
  match smode with
  | EmptyString => false
  | String c _ => (c =? "r")%char || (c =? "w")%char || (c =? "n")%char
  end.

(** ** The argument parsing of [cursor] and [lobject] *)

Definition nul_free (s : string) : bool :=
  forallb (fun c => negb (c =? NUL)%char) (list_ascii_of_string s).

(** The converter for the formats 's' and 'z', on a Python string: the
    [char *] it stores, or the [TypeError] it sets for a string with an
    embedded NUL. *)
Definition convert_s (s : string) : exn + string :=
  if nul_free s then inr s
  else inl (PyErr_SetString PyExc_TypeError
              "argument must be string without null bytes").

(** An optional argument (after '|' in the format): nothing is converted
    when it is absent. *)
Definition convert_optional {A} (convert : A -> exn + A) (a : option A)
  : exn + option A :=
  match a with
  | None => inr None
  | Some x =>
      match convert x with
      | inl e => inl e
      | inr v => inr (Some v)
      end
  end.

Definition InvalidOid : Z := 0.

Definition stored_or {A} (initial : A) (a : option A) : A :=
  match a with Some v => v | None => initial end.

(** [cursor(name, cursor_factory)] as Python calls it:
    [PyArg_ParseTupleAndKeywords(args, keywds, "|sO", ...)] comes first,
    before the closed check. *)
Definition psyco_conn_cursor_args (w : env) (name : option string)
    (factory : option nat) : M PyObject :=
  name <- PyArg (convert_optional convert_s name) ;;
  psyco_conn_cursor w name factory.

(** [lobject(oid, mode, new_oid, new_file, lobject_factory)] as Python
    calls it: [PyArg_ParseTupleAndKeywords(args, keywds, "|izizO", ...)]
    comes first, before both guards; [oid] and [new_oid] start as
    [InvalidOid]. *)
Definition psyco_conn_lobject_args (w : env) (oid : option Z)
    (smode : option string) (new_oid : option Z) (new_file : option string)
    (factory : option nat) : M PyObject :=
  oid <- PyArg (convert_optional convert_i oid) ;;
  smode <- PyArg (convert_optional convert_s smode) ;;
  new_oid <- PyArg (convert_optional convert_i new_oid) ;;
  new_file <- PyArg (convert_optional convert_s new_file) ;;
  psyco_conn_lobject w (stored_or InvalidOid oid) smode
    (stored_or InvalidOid new_oid) new_file factory.

(** An optional integer argument that fits a C [int]. *)
Definition int_arg (a : option Z) : Prop :=
  match a with
  | None => True
  | Some n => INT_MIN <= n <= INT_MAX
  end.

(** An optional string argument without an embedded NUL. *)
Definition str_arg (a : option string) : Prop :=
  match a with
  | None => True
  | Some s => c_string s
  end.

(** * Verified properties *)

(** ** Running the monad *)

Ltac unfold_monad :=
  cbv beta delta
    [bind ret raise undefined get modify emit call
     EXC_IF_CONN_CLOSED EXC_IF_CONN_ASYNC
     Py_BEGIN_ALLOW_THREADS Py_BLOCK_THREADS Py_END_ALLOW_THREADS
     pthread_mutex_lock pthread_mutex_unlock];
  cbn [result final calls app fst snd].

Lemma status_eqb_refl (s : conn_status) : conn_status_eqb s s = true.
Proof. unfold conn_status_eqb. destruct (conn_status_eq_dec s s); congruence. Qed.

Lemma status_eqb_neq (a b : conn_status) : a <> b -> conn_status_eqb a b = false.
Proof. unfold conn_status_eqb. destruct (conn_status_eq_dec a b); congruence. Qed.

(** The guard macros, as equations. *)
Lemma closed_guard_open (self : connectionObject) :
  closed self = 0 -> EXC_IF_CONN_CLOSED self = mkRun (Return tt) self [].
Proof. intros H. unfold_monad. rewrite H. reflexivity. Qed.

Lemma closed_guard_closed (self : connectionObject) :
  closed self <> 0 ->
  EXC_IF_CONN_CLOSED self =
  mkRun (Raise (PyErr_SetString InterfaceError "connection already closed")) self [].
Proof.
  intros H. unfold_monad.
  destruct (Z.eqb_spec (closed self) 0); [contradiction | reflexivity].
Qed.

Lemma async_guard_sync (cmd : string) (self : connectionObject) :
  async self <> 1 -> EXC_IF_CONN_ASYNC cmd self = mkRun (Return tt) self [].
Proof.
  intros H. unfold_monad.
  destruct (Z.eqb_spec (async self) 1); [contradiction | reflexivity].
Qed.

Lemma async_guard_async (cmd : string) (self : connectionObject) :
  async self = 1 ->
  EXC_IF_CONN_ASYNC cmd self =
  mkRun (Raise (PyErr_SetString ProgrammingError
                  (cmd ++ " cannot be used in asynchronous mode")%string)) self [].
Proof. intros H. unfold_monad. rewrite H. reflexivity. Qed.

(** [bind] after a computation whose run is known. *)
Lemma bind_return {A B} (m : M A) (k : A -> M B) (c c' : connectionObject) (a : A) :
  m c = mkRun (Return a) c' [] -> bind m k c = k a c'.
Proof.
  intros H. unfold bind. rewrite H. destruct (k a c'); reflexivity.
Qed.

Lemma bind_get {B} (k : connectionObject -> M B) (c : connectionObject) :
  bind get k c = k c c.
Proof. unfold bind, get. destruct (k c c); reflexivity. Qed.

Lemma bind_PyArg_stored {A B} (converted : exn + A) (v : A) (k : A -> M B)
    (c : connectionObject) :
  converted = inr v -> bind (PyArg converted) k c = k v c.
Proof.
  intros ->. unfold bind, PyArg, ret. destruct (k v c); reflexivity.
Qed.

Lemma bind_PyArg_failed {A B} (converted : exn + A) (e : exn) (k : A -> M B)
    (c : connectionObject) :
  converted = inl e -> bind (PyArg converted) k c = mkRun (Raise e) c [].
Proof. intros ->. reflexivity. Qed.

Lemma convert_i_fits (n : Z) :
  INT_MIN <= n <= INT_MAX -> convert_i n = inr n.
Proof.
  intros H. unfold convert_i.
  destruct (Z.gtb_spec n INT_MAX); [lia |].
  destruct (Z.ltb_spec n INT_MIN); [lia | reflexivity].
Qed.

Lemma convert_i_overflow (n : Z) :
  ~ (INT_MIN <= n <= INT_MAX) ->
  exists e, convert_i n = inl e /\ exc_type e = PyExc_OverflowError.
Proof.
  intros H. unfold convert_i.
  destruct (Z.gtb_spec n INT_MAX); [eexists; split; reflexivity |].
  destruct (Z.ltb_spec n INT_MIN); [eexists; split; reflexivity | lia].
Qed.

Lemma bind_raise {A B} (m : M A) (k : A -> M B) (c c' : connectionObject)
    (e : exn) (l : list event) :
  m c = mkRun (Raise e) c' l -> bind m k c = mkRun (Raise e) c' l.
Proof. intros H. unfold bind. rewrite H. reflexivity. Qed.

(** ** isexecuting *)

(** C4.  [isexecuting()] answers [True] exactly when the connection is
    asynchronous ([async] is not 0) and either its status is not
    [CONN_STATUS_READY] or a query is pending; in every other case it
    answers [False].  Hence it is [False] on every synchronous connection,
    [True] on an asynchronous one until the status is ready with no pending
    query, and [True] again while a query is pending. *)
Theorem isexecuting_characterisation (self : connectionObject) :
  (psyco_conn_isexecuting self = Py_True <->
     async self <> 0 /\
     (status self <> CONN_STATUS_READY \/ async_cursor self <> None))
  /\
  (psyco_conn_isexecuting self = Py_False <->
     ~ (async self <> 0 /\
        (status self <> CONN_STATUS_READY \/ async_cursor self <> None))).
Proof.
  unfold psyco_conn_isexecuting.
  destruct (Z.eqb_spec (async self) 0) as [Ha | Ha].
  - split; split; intros; intuition (congruence || discriminate).
  - destruct (conn_status_eq_dec (status self) CONN_STATUS_READY) as [Hs | Hs].
    + rewrite Hs, status_eqb_refl. cbn.
      destruct (async_cursor self) as [p |];
        split; split; intros; intuition (congruence || discriminate).
    + rewrite (status_eqb_neq _ _ Hs). cbn.
      split; split; intros; intuition (congruence || discriminate).
Qed.

(** ** poll *)

(** C2.  On a connection whose [closed] flag is set, [poll()] fails with
    [ConnectionClosed] whatever the status and the mode are; nothing is
    called and the struct is left as it was. *)
Theorem poll_closed_fails (w : env) (self : connectionObject) :
  closed self <> 0 ->
  exists e,
    psyco_conn_poll w self = mkRun (Raise e) self [] /\ ConnectionClosed e.
Proof.
  intros H. eexists. split.
  - unfold psyco_conn_poll.
    apply bind_raise. apply closed_guard_closed. exact H.
  - reflexivity.
Qed.

Lemma poll_closed_fails_witness :
  closed closed_connection <> 0 /\
  exists e,
    psyco_conn_poll quiet closed_connection = mkRun (Raise e) closed_connection []
    /\ ConnectionClosed e.
Proof.
  assert (H : closed closed_connection <> 0) by (cbn; lia).
  split; [exact H | exact (poll_closed_fails quiet closed_connection H)].
Defined.

(** The dispatch of [psyco_conn_poll] on an open connection. *)
Lemma poll_open_async (w : env) (self : connectionObject) :
  closed self = 0 -> async self <> 0 ->
  psyco_conn_poll w self = psyco_conn_poll_async w self.
Proof.
  intros Hc Ha. unfold psyco_conn_poll.
  rewrite (bind_return _ _ _ _ _ (closed_guard_open self Hc)), bind_get.
  destruct (Z.eqb_spec (async self) 0); [contradiction | reflexivity].
Qed.

Lemma poll_open_sync (w : env) (self : connectionObject) :
  closed self = 0 -> async self = 0 ->
  psyco_conn_poll w self = conn_poll_green w self.
Proof.
  intros Hc Ha. unfold psyco_conn_poll.
  rewrite (bind_return _ _ _ _ _ (closed_guard_open self Hc)), bind_get.
  rewrite Ha. reflexivity.
Qed.

(** The [CONN_STATUS_SETUP] case of the switch. *)
Lemma poll_async_setup (w : env) (self : connectionObject) :
  status self = CONN_STATUS_SETUP ->
  psyco_conn_poll_async w self =
    mkRun (Return (PyInt_FromLong PSYCO_POLL_WRITE))
          (set_status CONN_STATUS_ASYNC self) [].
Proof.
  intros Hs. unfold psyco_conn_poll_async. rewrite bind_get, Hs. reflexivity.
Qed.

(** C9.  With status [CONN_STATUS_SETUP], [psyco_conn_poll_async] sets the
    status to [CONN_STATUS_ASYNC] (connecting) and returns [waitWritable]
    without calling anything; so does [poll()] on an open asynchronous
    connection, which therefore cannot fail at its first call. *)
Theorem poll_setup_first_step (w : env) (self : connectionObject) :
  status self = CONN_STATUS_SETUP ->
  psyco_conn_poll_async w self =
    mkRun (Return (PyInt_FromLong PSYCO_POLL_WRITE))
          (set_status CONN_STATUS_ASYNC self) []
  /\
  (closed self = 0 -> async self <> 0 ->
   psyco_conn_poll w self =
     mkRun (Return (PyInt_FromLong PSYCO_POLL_WRITE))
           (set_status CONN_STATUS_ASYNC self) []).
Proof.
  intros Hs. split; [exact (poll_async_setup w self Hs) |].
  intros Hc Ha. rewrite (poll_open_async w self Hc Ha).
  exact (poll_async_setup w self Hs).
Qed.

Lemma poll_setup_first_step_witness :
  status fresh_async = CONN_STATUS_SETUP /\
  psyco_conn_poll quiet fresh_async =
    mkRun (Return (PyInt_FromLong PSYCO_POLL_WRITE))
          (set_status CONN_STATUS_ASYNC fresh_async) [].
Proof.
  split; [reflexivity |].
  apply (proj2 (poll_setup_first_step quiet fresh_async eq_refl)).
  - reflexivity.
  - cbn. lia.
Defined.

(** The first [poll()] after construction: when [conn_connect] leaves the
    flags and the status as [connection_setup] has set them (the spec:
    asynchronous mode leaves the status at setup for the caller to drive),
    the first call returns [waitWritable], whatever the transport would
    answer. *)
Lemma first_poll_after_construction (w w' : env) (d : string) (a : Z)
    (self : connectionObject) :
  a <> 0 ->
  (forall c, closed (fst (conn_connect w c a)) = closed c /\
             async (fst (conn_connect w c a)) = async c /\
             status (fst (conn_connect w c a)) = status c) ->
  result (psyco_conn_poll w' (final (connection_setup w d a self))) =
    Return (PyInt_FromLong PSYCO_POLL_WRITE)
  /\
  calls (psyco_conn_poll w' (final (connection_setup w d a self))) = [].
Proof.
  intros Ha Hkeep.
  set (c0 := set_lock false
               (mkConnection d [] [] 0 a CONN_STATUS_SETUP None None ASYNC_DONE
                  None 0 [] [] None None (datestyle self) (equote self)
                  (isolation_level self) (lock self))).
  destruct (Hkeep c0) as [Hc [Hasync Hs]].
  assert (F : closed (final (connection_setup w d a self)) = 0 /\
              async (final (connection_setup w d a self)) = a /\
              status (final (connection_setup w d a self)) = CONN_STATUS_SETUP).
  { unfold connection_setup. unfold_monad. fold c0.
    destruct (obfuscate_password (dsn (fst (conn_connect w c0 a))));
      cbn; rewrite ?Hc, ?Hasync, ?Hs; repeat split; reflexivity. }
  destruct F as [Fc [Fa Fs]].
  rewrite poll_open_async by (rewrite ?Fa; assumption).
  rewrite (poll_async_setup w' _ Fs). split; reflexivity.
Qed.

(** ** The steady state *)

Lemma poll_ready_idle (w : env) (self : connectionObject) :
  closed self = 0 ->
  status self = CONN_STATUS_READY ->
  async_cursor self = None ->
  psyco_conn_poll w self = mkRun (Return (PyInt_FromLong PSYCO_POLL_OK)) self [].
Proof.
  intros Hc Hs Hq.
  assert (E : conn_poll_ready w self =
              mkRun (Return (PyInt_FromLong PSYCO_POLL_OK)) self []).
  { unfold conn_poll_ready. unfold_monad. rewrite Hq. reflexivity. }
  destruct (Z.eq_dec (async self) 0) as [Ha | Ha].
  - rewrite (poll_open_sync w self Hc Ha). exact E.
  - rewrite (poll_open_async w self Hc Ha).
    unfold psyco_conn_poll_async. rewrite bind_get, Hs. exact E.
Qed.

(** C8.  On an open connection with status [CONN_STATUS_READY] and no
    pending query, [poll()] returns [complete], calls nothing and leaves
    the struct unchanged; any number of further calls does the same. *)
Theorem poll_ready_steady (ws : list env) (self : connectionObject) :
  closed self = 0 ->
  status self = CONN_STATUS_READY ->
  async_cursor self = None ->
  (forall w, psyco_conn_poll w self =
             mkRun (Return (PyInt_FromLong PSYCO_POLL_OK)) self [])
  /\
  poll_repeatedly ws self =
    (repeat (Return (PyInt_FromLong PSYCO_POLL_OK)) (List.length ws), self).
Proof.
  intros Hc Hs Hq. split.
  - intros w. apply poll_ready_idle; assumption.
  - induction ws as [| w ws IH]; [reflexivity |].
    cbn [poll_repeatedly List.length repeat].
    rewrite (poll_ready_idle w self Hc Hs Hq). cbn [final result].
    rewrite IH. reflexivity.
Qed.

Lemma poll_ready_steady_witness :
  closed ready_connection = 0 /\
  status ready_connection = CONN_STATUS_READY /\
  async_cursor ready_connection = None /\
  poll_repeatedly
    [quiet; sample_env PGRES_POLLING_FAILED needRead (-1); quiet]
    ready_connection =
  ([Return (PyInt_FromLong PSYCO_POLL_OK); Return (PyInt_FromLong PSYCO_POLL_OK);
    Return (PyInt_FromLong PSYCO_POLL_OK)], ready_connection).
Proof.
  repeat (split; [reflexivity |]).
  exact (proj2 (poll_ready_steady
                  [quiet; sample_env PGRES_POLLING_FAILED needRead (-1); quiet]
                  ready_connection eq_refl eq_refl eq_refl)).
Defined.

(** ** Isolation level *)

Lemma set_isolation_level_open_sync (w : env) (level : Z) (self : connectionObject) :
  closed self = 0 -> async self <> 1 ->
  INT_MIN <= level <= INT_MAX ->
  psyco_conn_set_isolation_level w level self =
  (if (level <? 0) || (level >? 2)
   then raise (PyErr_SetString PyExc_ValueError
                 "isolation level out of bounds (0,3)")
   else
     res <- call (Ev_conn_switch_isolation_level level)
                 (fun c => conn_switch_isolation_level w c level) ;;
     if res <? 0
     then emit Ev_PQerrorMessage ;;
          raise (PyErr_SetString OperationalError (PQerrorMessage w))
     else ret Py_None) self.
Proof.
  intros Hc Ha Hfits. unfold psyco_conn_set_isolation_level.
  rewrite (bind_return _ _ _ _ _ (closed_guard_open self Hc)).
  rewrite (bind_return _ _ _ _ _ (async_guard_sync _ self Ha)).
  rewrite (bind_PyArg_stored _ _ _ _ (convert_i_fits level Hfits)).
  reflexivity.
Qed.

Lemma set_isolation_level_overflow (w : env) (level : Z) (self : connectionObject) :
  closed self = 0 -> async self <> 1 ->
  ~ (INT_MIN <= level <= INT_MAX) ->
  exists e,
    psyco_conn_set_isolation_level w level self = mkRun (Raise e) self [] /\
    exc_type e = PyExc_OverflowError.
Proof.
  intros Hc Ha Hbig.
  destruct (convert_i_overflow level Hbig) as [e [He Ht]].
  exists e. split; [| exact Ht].
  unfold psyco_conn_set_isolation_level.
  rewrite (bind_return _ _ _ _ _ (closed_guard_open self Hc)).
  rewrite (bind_return _ _ _ _ _ (async_guard_sync _ self Ha)).
  exact (bind_PyArg_failed _ _ _ _ He).
Qed.

(** C5.  [set_isolation_level(level)]: a level other than 0, 1, 2 is always
    rejected with nothing called and the struct untouched.  On an open
    synchronous connection a level that fits a C [int] (what the 'i' format
    of [PyArg_ParseTuple] stores) is rejected by the range test with a
    [ValidationError], the [ValueError] "isolation level out of bounds
    (0,3)"; a Python integer beyond the range of a C [int] is rejected one
    step earlier, by the parser, with [OverflowError].  The levels 0, 1 and
    2 pass the check there, that is, [conn_switch_isolation_level] is
    called with the level and no [ValidationError] is raised. *)
Theorem set_isolation_level_validation (w : env) (level : Z)
    (self : connectionObject) :
  (~ (level = 0 \/ level = 1 \/ level = 2) ->
     exists e,
       psyco_conn_set_isolation_level w level self = mkRun (Raise e) self [] /\
       (closed self = 0 -> async self <> 1 ->
        (INT_MIN <= level <= INT_MAX ->
           e = PyErr_SetString PyExc_ValueError
                 "isolation level out of bounds (0,3)" /\
           ValidationError e) /\
        (~ (INT_MIN <= level <= INT_MAX) ->
           exc_type e = PyExc_OverflowError)))
  /\
  (level = 0 \/ level = 1 \/ level = 2 ->
   closed self = 0 -> async self <> 1 ->
     (exists rest,
        calls (psyco_conn_set_isolation_level w level self) =
        Ev_conn_switch_isolation_level level :: rest) /\
     (forall e, result (psyco_conn_set_isolation_level w level self) = Raise e ->
                ~ ValidationError e)).
Proof.
  split.
  - intros Hout.
    assert (Hrange : (level <? 0) || (level >? 2) = true).
    { apply orb_true_iff.
      destruct (Z.ltb_spec level 0); [now left | right].
      rewrite Z.gtb_ltb. apply Z.ltb_lt. lia. }
    destruct (Z.eq_dec (closed self) 0) as [Hc | Hc].
    + destruct (Z.eq_dec (async self) 1) as [Ha | Ha].
      * eexists. split.
        -- unfold psyco_conn_set_isolation_level.
           rewrite (bind_return _ _ _ _ _ (closed_guard_open self Hc)).
           apply bind_raise. apply async_guard_async. exact Ha.
        -- intros _ Hn. contradiction.
      * assert (Hdec : INT_MIN <= level <= INT_MAX \/
                       ~ (INT_MIN <= level <= INT_MAX)) by lia.
        destruct Hdec as [Hfits | Hbig].
        -- eexists. split.
           ++ rewrite (set_isolation_level_open_sync w level self Hc Ha Hfits).
              rewrite Hrange. reflexivity.
           ++ intros _ _. split.
              ** intros _. split; [reflexivity | left; reflexivity].
              ** intros Hn. contradiction.
        -- destruct (set_isolation_level_overflow w level self Hc Ha Hbig)
             as [e [He Ht]].
           exists e. split; [exact He |].
           intros _ _. split.
           ++ intros Hn. contradiction.
           ++ intros _. exact Ht.
    + eexists. split.
      * unfold psyco_conn_set_isolation_level.
        apply bind_raise. apply closed_guard_closed. exact Hc.
      * intros Hn. contradiction.
  - intros Hin Hc Ha.
    assert (Hfits : INT_MIN <= level <= INT_MAX)
      by (unfold INT_MIN, INT_MAX; lia).
    assert (Hrange : (level <? 0) || (level >? 2) = false).
    { apply orb_false_iff. split.
      - apply Z.ltb_ge. lia.
      - rewrite Z.gtb_ltb. apply Z.ltb_ge. lia. }
    rewrite (set_isolation_level_open_sync w level self Hc Ha Hfits), Hrange.
    unfold_monad.
    destruct (snd (conn_switch_isolation_level w self level) <? 0); cbn.
    + split; [eexists; reflexivity |].
      intros e He. injection He as <-. intros [H | H]; discriminate H.
    + split; [eexists; reflexivity |].
      intros e He. discriminate He.
Qed.

Lemma set_isolation_level_validation_witness :
  (exists e,
     psyco_conn_set_isolation_level quiet 3 sync_ready =
       mkRun (Raise e) sync_ready [] /\ ValidationError e)
  /\
  (exists e,
     psyco_conn_set_isolation_level quiet (-1) sync_ready =
       mkRun (Raise e) sync_ready [] /\ ValidationError e)
  /\
  (exists e,
     psyco_conn_set_isolation_level quiet 2147483648 sync_ready =
       mkRun (Raise e) sync_ready [] /\ exc_type e = PyExc_OverflowError)
  /\
  (exists rest,
     calls (psyco_conn_set_isolation_level quiet 2 sync_ready) =
     Ev_conn_switch_isolation_level 2 :: rest).
Proof.
  assert (Hc : closed sync_ready = 0) by reflexivity.
  assert (Ha : async sync_ready <> 1) by (cbn; lia).
  split; [| split; [| split]].
  - destruct (proj1 (set_isolation_level_validation quiet 3 sync_ready))
      as [e [He Hv]]; [lia |].
    exists e. split; [exact He |].
    apply (proj1 (Hv Hc Ha)). unfold INT_MIN, INT_MAX. lia.
  - destruct (proj1 (set_isolation_level_validation quiet (-1) sync_ready))
      as [e [He Hv]]; [lia |].
    exists e. split; [exact He |].
    apply (proj1 (Hv Hc Ha)). unfold INT_MIN, INT_MAX. lia.
  - destruct (proj1 (set_isolation_level_validation quiet 2147483648 sync_ready))
      as [e [He Hv]]; [lia |].
    exists e. split; [exact He |].
    apply (proj2 (Hv Hc Ha)). unfold INT_MIN, INT_MAX. lia.
  - apply (proj2 (set_isolation_level_validation quiet 2 sync_ready));
      [lia | exact Hc | exact Ha].
Defined.

(** ** Synchronous-only operations on an asynchronous connection *)

Ltac async_conflict Hc Ha :=
  eexists; split;
  [ rewrite (bind_return _ _ _ _ _ (closed_guard_open _ Hc));
    apply bind_raise; apply async_guard_async; exact Ha
  | reflexivity ].

(** C6, the counterexample.  Right after an asynchronous [connection_setup]
    (open, [async] = 1, status [CONN_STATUS_SETUP]) a request for a named
    cursor fails, but with the [OperationalError] of the handshake check,
    not with [AsyncModeConflict]. *)
Lemma named_cursor_during_handshake :
  closed fresh_async = 0 /\ async fresh_async = 1 /\
  psyco_conn_cursor quiet (Some "c1") None fresh_async =
    mkRun (Raise (PyErr_SetString OperationalError
                    "asynchronous connection attempt underway"))
          fresh_async []
  /\
  ~ AsyncModeConflict
      (PyErr_SetString OperationalError
         "asynchronous connection attempt underway").
Proof.
  repeat (split; [reflexivity |]).
  unfold AsyncModeConflict. cbn. discriminate.
Qed.

(** C6, as the code has it.  On an open connection with [async] = 1,
    [commit], [rollback], [set_isolation_level], [reset] and [lobject] fail
    with [AsyncModeConflict] before anything is called or changed.  A
    request for a named cursor fails with [AsyncModeConflict] when the
    status is [CONN_STATUS_READY] or [CONN_STATUS_BEGIN]; during the
    handshake it fails with the [OperationalError] of the status check
    instead.  In both cases nothing is called or changed. *)
Theorem async_mode_conflict (w : env) (self : connectionObject) :
  closed self = 0 -> async self = 1 ->
  (exists e, psyco_conn_commit w self = mkRun (Raise e) self []
             /\ AsyncModeConflict e) /\
  (exists e, psyco_conn_rollback w self = mkRun (Raise e) self []
             /\ AsyncModeConflict e) /\
  (forall level,
   exists e, psyco_conn_set_isolation_level w level self = mkRun (Raise e) self []
             /\ AsyncModeConflict e) /\
  (exists e, psyco_conn_reset w self = mkRun (Raise e) self []
             /\ AsyncModeConflict e) /\
  (forall oid smode new_oid new_file factory,
   exists e, psyco_conn_lobject w oid smode new_oid new_file factory self =
               mkRun (Raise e) self []
             /\ AsyncModeConflict e) /\
  (forall name factory,
     (status self = CONN_STATUS_READY \/ status self = CONN_STATUS_BEGIN ->
      exists e, psyco_conn_cursor w (Some name) factory self =
                  mkRun (Raise e) self []
                /\ AsyncModeConflict e)
     /\
     (status self <> CONN_STATUS_READY -> status self <> CONN_STATUS_BEGIN ->
      psyco_conn_cursor w (Some name) factory self =
        mkRun (Raise (PyErr_SetString OperationalError
                        "asynchronous connection attempt underway"))
              self [])).
Proof.
  intros Hc Ha.
  split; [unfold psyco_conn_commit; async_conflict Hc Ha |].
  split; [unfold psyco_conn_rollback; async_conflict Hc Ha |].
  split; [intros level; unfold psyco_conn_set_isolation_level;
          async_conflict Hc Ha |].
  split; [unfold psyco_conn_reset; async_conflict Hc Ha |].
  split; [intros oid smode new_oid new_file factory;
          unfold psyco_conn_lobject; async_conflict Hc Ha |].
  intros name factory. unfold psyco_conn_cursor.
  rewrite (bind_return _ _ _ _ _ (closed_guard_open self Hc)), bind_get.
  split.
  - intros Hs. eexists. split.
    + destruct Hs as [Hs | Hs]; rewrite Hs, Ha; reflexivity.
    + reflexivity.
  - intros Hr Hb.
    rewrite (status_eqb_neq _ _ Hr), (status_eqb_neq _ _ Hb). reflexivity.
Qed.

Lemma async_mode_conflict_witness :
  closed ready_connection = 0 /\ async ready_connection = 1 /\
  (exists e, psyco_conn_commit quiet ready_connection =
               mkRun (Raise e) ready_connection []
             /\ AsyncModeConflict e) /\
  (exists e, psyco_conn_cursor quiet (Some "c1") None ready_connection =
               mkRun (Raise e) ready_connection []
             /\ AsyncModeConflict e).
Proof.
  pose proof (async_mode_conflict quiet ready_connection eq_refl eq_refl)
    as [Hcommit [_ [_ [_ [_ Hcursor]]]]].
  split; [reflexivity |]. split; [reflexivity |].
  split; [exact Hcommit |].
  apply (proj1 (Hcursor "c1"%string None)). left. reflexivity.
Defined.

(** ** The mutex around [PQconnectPoll] *)

Ltac unfold_poll :=
  unfold psyco_conn_poll, psyco_conn_poll_async, conn_poll_green,
    conn_poll_ready, conn_poll_connect_send, conn_poll_connect_fetch,
    poll_connect_step;
  unfold_monad.

(** The five exits of the guarded step, one per answer of [PQconnectPoll]:
    the mutex is taken before the call and given back before the function
    returns or fails. *)
Lemma poll_connect_step_paths (w : env) (self : connectionObject) :
  lock self = false ->
  poll_connect_step w self =
  match PQconnectPoll w with
  | PGRES_POLLING_READING =>
      mkRun (Return (PyInt_FromLong PSYCO_POLL_READ)) self
        [Ev_PyEval_SaveThread; Ev_pthread_mutex_lock; Ev_PQconnectPoll;
         Ev_pthread_mutex_unlock; Ev_PyEval_RestoreThread]
  | PGRES_POLLING_WRITING =>
      mkRun (Return (PyInt_FromLong PSYCO_POLL_WRITE)) self
        [Ev_PyEval_SaveThread; Ev_pthread_mutex_lock; Ev_PQconnectPoll;
         Ev_pthread_mutex_unlock; Ev_PyEval_RestoreThread]
  | PGRES_POLLING_FAILED =>
      mkRun (Raise (PyErr_SetString OperationalError (PQerrorMessage w))) self
        [Ev_PyEval_SaveThread; Ev_pthread_mutex_lock; Ev_PQconnectPoll;
         Ev_pthread_mutex_unlock; Ev_PyEval_RestoreThread; Ev_PQerrorMessage]
  | PGRES_POLLING_OK =>
      mkRun (Return (PyInt_FromLong PSYCO_POLL_WRITE))
        (set_status CONN_STATUS_SEND_DATESTYLE
           (set_equote (conn_get_standard_conforming_strings w) self))
        [Ev_PyEval_SaveThread; Ev_pthread_mutex_lock; Ev_PQconnectPoll;
         Ev_conn_get_standard_conforming_strings;
         Ev_pthread_mutex_unlock; Ev_PyEval_RestoreThread]
  | PGRES_POLLING_ACTIVE =>
      mkRun (Raise (PyErr_SetString OperationalError
                      "unexpected result from PQconnectPoll: 4")) self
        [Ev_PyEval_SaveThread; Ev_pthread_mutex_lock; Ev_PQconnectPoll;
         Ev_pthread_mutex_unlock; Ev_PyEval_RestoreThread]
  end.
Proof.
  intros Hl. destruct self. cbn in Hl. subst.
  unfold poll_connect_step. unfold_monad.
  destruct (PQconnectPoll w); reflexivity.
Qed.

(** A caller that finds the mutex held blocks before [PQconnectPoll]. *)
Lemma poll_connect_step_blocks (w : env) (self : connectionObject) :
  lock self = true ->
  poll_connect_step w self = mkRun Blocked self [Ev_PyEval_SaveThread].
Proof.
  intros Hl. unfold poll_connect_step. unfold_monad. rewrite Hl. reflexivity.
Qed.

(** C7.  Whatever the state of the connection and the answer of the
    transport, a [poll()] entered with the mutex free leaves it free, on
    return and on failure alike; the calls it makes respect the guard
    discipline ([PQconnectPoll] only between a lock and the matching
    unlock); and the step does occur: with status [CONN_STATUS_ASYNC] on
    an open asynchronous connection [PQconnectPoll] is called. *)
Theorem poll_guard_released (w : env) (self : connectionObject) :
  lock self = false ->
  lock (final (psyco_conn_poll w self)) = false /\
  guard_discipline false (calls (psyco_conn_poll w self)) = true /\
  result (psyco_conn_poll w self) <> Blocked /\
  (closed self = 0 -> async self <> 0 -> status self = CONN_STATUS_ASYNC ->
   In Ev_PQconnectPoll (calls (psyco_conn_poll w self))).
Proof.
  intros Hl. destruct self. cbn in Hl. subst.
  unfold_poll. cbn.
  destruct (Z.eqb_spec closed0 0) as [Hc | Hc]; cbn.
  2: { repeat split; try discriminate. intros; contradiction. }
  destruct (Z.eqb_spec async0 0) as [Ha | Ha]; cbn.
  - destruct async_cursor0, (queryStatus w); cbn;
      repeat split; try discriminate; intros; contradiction.
  - destruct status0, async_cursor0, (PQconnectPoll w), (queryStatus w); cbn;
      repeat split; try discriminate; intros; try discriminate; tauto.
Qed.

Lemma poll_guard_released_witness :
  lock connecting = false /\
  lock (final (psyco_conn_poll failing connecting)) = false /\
  guard_discipline false (calls (psyco_conn_poll failing connecting)) = true /\
  result (psyco_conn_poll failing connecting) <> Blocked /\
  In Ev_PQconnectPoll (calls (psyco_conn_poll failing connecting)).
Proof.
  pose proof (poll_guard_released failing connecting eq_refl)
    as [H1 [H2 [H3 H4]]].
  split; [reflexivity |].
  split; [exact H1 |]. split; [exact H2 |]. split; [exact H3 |].
  apply H4; [reflexivity | cbn; lia | reflexivity].
Defined.

(** ** Client encoding names *)

Lemma normalized_separator (c : ascii) (l : list ascii) :
  is_separator c = true -> normalized_chars (c :: l) = normalized_chars l.
Proof. intros H. unfold normalized_chars. cbn. rewrite H. reflexivity. Qed.

Lemma normalized_other (c : ascii) (l : list ascii) :
  is_separator c = false -> normalized_chars (c :: l) = toupper c :: normalized_chars l.
Proof. intros H. unfold normalized_chars. cbn. rewrite H. reflexivity. Qed.

Lemma store_at_end (pre post : list ascii) (x v : ascii) :
  store (List.length pre) v (pre ++ x :: post) = pre ++ v :: post.
Proof.
  induction pre as [| p pre IH]; cbn; [reflexivity |].
  rewrite IH. reflexivity.
Qed.

(** The loop writes the characters it keeps, upper-cased, from index [j] on
    and leaves the rest of the block alone. *)
Lemma encoding_loop_spec (rest pre post : list ascii) :
  (List.length (normalized_chars rest) <= List.length post)%nat ->
  encoding_loop rest (List.length pre) (pre ++ post) =
  ((List.length pre + List.length (normalized_chars rest))%nat,
   pre ++ normalized_chars rest ++ skipn (List.length (normalized_chars rest)) post).
Proof.
  revert pre post.
  induction rest as [| c rest IH]; intros pre post Hlen.
  - cbn. rewrite Nat.add_0_r. reflexivity.
  - cbn [encoding_loop].
    destruct (is_separator c) eqn:Hsep.
    + rewrite (normalized_separator c rest Hsep) in *. apply IH. exact Hlen.
    + rewrite (normalized_other c rest Hsep) in *. cbn [List.length] in *.
      destruct post as [| x post]; [cbn in Hlen; lia |].
      rewrite store_at_end.
      replace (pre ++ toupper c :: post) with ((pre ++ [toupper c]) ++ post)
        by (rewrite <- app_assoc; reflexivity).
      replace (S (List.length pre)) with (List.length (pre ++ [toupper c]))
        by (rewrite length_app; cbn; lia).
      rewrite IH by (cbn in Hlen; lia).
      rewrite length_app. cbn [List.length skipn].
      f_equal; [lia |].
      rewrite <- app_assoc. reflexivity.
Qed.

Lemma normalized_length (l : list ascii) :
  (List.length (normalized_chars l) <= List.length l)%nat.
Proof.
  unfold normalized_chars. rewrite length_map. apply filter_length_le.
Qed.

Lemma toupper_not_NUL (c : ascii) : c <> NUL -> toupper c <> NUL.
Proof.
  destruct c as [[] [] [] [] [] [] [] []]; vm_compute; congruence.
Qed.

Lemma normalized_NUL_free (l : list ascii) :
  ~ In NUL l -> ~ In NUL (normalized_chars l).
Proof.
  unfold normalized_chars. intros Hl Hin.
  apply in_map_iff in Hin. destruct Hin as [c [Hc Hin]].
  apply filter_In in Hin. destruct Hin as [Hin _].
  apply (toupper_not_NUL c); [| exact Hc].
  intros ->. contradiction.
Qed.

Lemma c_str_terminated (out tail : list ascii) :
  ~ In NUL out -> c_str (out ++ NUL :: tail) = out.
Proof.
  induction out as [| c out IH]; intros Hn; cbn.
  - reflexivity.
  - destruct (Ascii.eqb_spec c NUL) as [-> | Hc].
    + exfalso. apply Hn. left. reflexivity.
    + rewrite IH; [reflexivity |]. intros H. apply Hn. right. exact H.
Qed.

Lemma skipn_repeat_more (x : ascii) (n m : nat) :
  (n <= m)%nat -> skipn n (repeat x (m + 1)) = x :: repeat x (m - n).
Proof.
  revert m. induction n as [| n IH]; intros m Hle.
  - rewrite Nat.add_1_r, Nat.sub_0_r. reflexivity.
  - destruct m as [| m]; [lia |]. cbn. apply IH. lia.
Qed.

(** The buffer handed to [conn_set_client_encoding] holds the normalised
    name. *)
Lemma encoding_buffer_spec (enc : string) :
  c_string enc ->
  string_of_list_ascii (c_str (encoding_buffer enc)) =
  normalize_encoding_name enc.
Proof.
  intros Hc. unfold encoding_buffer, normalize_encoding_name, PyMem_Malloc.
  set (e := list_ascii_of_string enc).
  pose proof (normalized_length e) as Hlen.
  pose proof (encoding_loop_spec e [] (repeat "255"%char (List.length e + 1))) as H.
  cbn [List.length app Nat.add] in H.
  rewrite H by (rewrite repeat_length; lia). clear H.
  rewrite (skipn_repeat_more _ _ _ Hlen).
  replace (normalized_chars e ++ "255"%char :: repeat "255"%char
             (List.length e - List.length (normalized_chars e)))
    with ([] ++ normalized_chars e ++ "255"%char :: repeat "255"%char
             (List.length e - List.length (normalized_chars e)))
    by reflexivity.
  rewrite app_assoc.
  replace (List.length (normalized_chars e))
    with (List.length ([] ++ normalized_chars e)) at 1 by reflexivity.
  rewrite store_at_end. cbn [app].
  rewrite c_str_terminated; [reflexivity |].
  apply normalized_NUL_free. exact Hc.
Qed.


Lemma same_letter_toupper (c d : ascii) :
  same_letter c d ->
  toupper c = toupper d /\ is_separator c = is_separator d.
Proof.
  intros H. destruct H as [c | c Hl | c Hl].
  - split; reflexivity.
  - revert Hl. destruct c as [[] [] [] [] [] [] [] []]; vm_compute;
      intros Hl; try discriminate Hl; split; reflexivity.
  - revert Hl. destruct c as [[] [] [] [] [] [] [] []]; vm_compute;
      intros Hl; try discriminate Hl; split; reflexivity.
Qed.

Lemma similar_names_normalized (a b : list ascii) :
  similar_names a b -> normalized_chars a = normalized_chars b.
Proof.
  intros H. induction H as [| c d a b Hcd _ IH | c a b Hc _ IH | c a b Hc _ IH].
  - reflexivity.
  - destruct (same_letter_toupper c d Hcd) as [Hup Hsep].
    destruct (is_separator c) eqn:Hc.
    + rewrite (normalized_separator c a Hc), (normalized_separator d b (eq_sym Hsep)).
      exact IH.
    + rewrite (normalized_other c a Hc), (normalized_other d b (eq_sym Hsep)), Hup, IH.
      reflexivity.
  - rewrite (normalized_separator c a Hc). exact IH.
  - rewrite (normalized_separator c b Hc). exact IH.
Qed.

(** C10.  On an open synchronous connection [set_client_encoding(enc)]
    makes exactly one call, [conn_set_client_encoding], and passes it the
    name with every '-' and '_' deleted and the other characters
    upper-cased; two names that differ only in case or in '-' / '_'
    characters give the same run. *)
Theorem set_client_encoding_normalizes (w : env) (self : connectionObject)
    (enc : string) :
  c_string enc -> closed self = 0 -> async self <> 1 ->
  calls (psyco_conn_set_client_encoding w enc self) =
    [Ev_conn_set_client_encoding (normalize_encoding_name enc)]
  /\
  final (psyco_conn_set_client_encoding w enc self) =
    fst (conn_set_client_encoding w self (normalize_encoding_name enc))
  /\
  (forall enc' : string,
     c_string enc' ->
     similar_names (list_ascii_of_string enc) (list_ascii_of_string enc') ->
     psyco_conn_set_client_encoding w enc' self =
     psyco_conn_set_client_encoding w enc self).
Proof.
  intros Hs Hc Ha.
  assert (E : forall e : string, c_string e ->
            psyco_conn_set_client_encoding w e self =
            (res <- call (Ev_conn_set_client_encoding (normalize_encoding_name e))
                      (fun c => conn_set_client_encoding w c
                                  (normalize_encoding_name e)) ;;
             if res =? 0 then ret Py_None else raise (callee_exception w)) self).
  { intros e He. unfold psyco_conn_set_client_encoding.
    rewrite (bind_return _ _ _ _ _ (closed_guard_open self Hc)).
    rewrite (bind_return _ _ _ _ _ (async_guard_sync _ self Ha)).
    rewrite (encoding_buffer_spec e He). reflexivity. }
  split; [| split].
  - rewrite (E enc Hs). unfold_monad.
    destruct (snd (conn_set_client_encoding w self _) =? 0); reflexivity.
  - rewrite (E enc Hs). unfold_monad.
    destruct (snd (conn_set_client_encoding w self _) =? 0); reflexivity.
  - intros enc' Hs' Hsim.
    rewrite (E enc Hs), (E enc' Hs').
    unfold normalize_encoding_name.
    rewrite (similar_names_normalized _ _ Hsim). reflexivity.
Qed.

Lemma set_client_encoding_normalizes_witness :
  calls (psyco_conn_set_client_encoding quiet "iso_8859-1" sync_ready) =
    [Ev_conn_set_client_encoding "ISO88591"]
  /\
  psyco_conn_set_client_encoding quiet "ISO8859_1" sync_ready =
  psyco_conn_set_client_encoding quiet "iso_8859-1" sync_ready.
Proof.
  assert (Hs : c_string "iso_8859-1").
  { unfold c_string. cbn. intros H.
    repeat (destruct H as [H | H]; [discriminate H |]). exact H. }
  assert (Hs' : c_string "ISO8859_1").
  { unfold c_string. cbn. intros H.
    repeat (destruct H as [H | H]; [discriminate H |]). exact H. }
  assert (Ha : async sync_ready <> 1) by (cbn; lia).
  pose proof (set_client_encoding_normalizes quiet sync_ready "iso_8859-1"
                Hs eq_refl Ha) as [H1 [_ H3]].
  split; [exact H1 |].
  apply H3; [exact Hs' |]. cbn.
  apply similar_cons; [exact (lower_upper "i" eq_refl) |].
  apply similar_cons; [exact (lower_upper "s" eq_refl) |].
  apply similar_cons; [exact (lower_upper "o" eq_refl) |].
  apply similar_skip_left; [reflexivity |].
  do 4 (apply similar_cons; [apply same_char |]).
  apply similar_skip_left; [reflexivity |].
  apply similar_skip_right; [reflexivity |].
  apply similar_cons; [apply same_char |].
  apply similar_nil.
Defined.

(** ** The asynchronous handshake *)

(** One [poll()] call during the handshake: the flags are kept; a call
    that tells the caller to wait either stays in the status or enters the
    next one with the directive of that status; [complete] is only given on
    the move from [CONN_STATUS_GET_CLIENT_ENCODING] to [CONN_STATUS_READY]. *)
Lemma handshake_step (w : env) (self : connectionObject) :
  closed self = 0 -> async self <> 0 -> in_handshake (status self) = true ->
  closed (final (psyco_conn_poll w self)) = 0 /\
  async (final (psyco_conn_poll w self)) = async self /\
  (keeps_waiting (result (psyco_conn_poll w self)) = true ->
     status (final (psyco_conn_poll w self)) = status self \/
     (status (final (psyco_conn_poll w self)) = next_status (status self) /\
      result (psyco_conn_poll w self) = entering (next_status (status self))))
  /\
  (is_complete (result (psyco_conn_poll w self)) = true ->
     status self = CONN_STATUS_GET_CLIENT_ENCODING /\
     status (final (psyco_conn_poll w self)) = CONN_STATUS_READY /\
     result (psyco_conn_poll w self) = complete).
Proof.
  intros Hc Ha Hin. destruct self. cbn in Hc, Ha, Hin. subst.
  unfold_poll. cbn.
  destruct (Z.eqb_spec async0 0) as [E | _]; [contradiction |]. cbn.
  destruct status0; try discriminate Hin;
    destruct lock0, (PQconnectPoll w), (queryStatus w); cbn;
    repeat split; intros; try discriminate;
    try (left; reflexivity); try (right; split; reflexivity).
Qed.

Lemma keeps_waiting_not_complete (o : outcome PyObject) :
  keeps_waiting o = true -> o <> complete.
Proof. intros H E. rewrite E in H. discriminate H. Qed.

(** The wait loop started anywhere in the handshake. *)
Lemma wait_loop_from (ws : list env) :
  forall self established,
  closed self = 0 -> async self <> 0 -> in_handshake (status self) = true ->
  snd (wait_loop ws self) = Some established ->
  visited (status self) (fst (wait_loop ws self)) =
    skipn (rank (status self)) handshake_sequence
  /\
  Forall (fun st => before st <> after st -> directive st = entering (after st))
         (fst (wait_loop ws self))
  /\
  (exists init,
     fst (wait_loop ws self) =
       init ++ [mkStep CONN_STATUS_GET_CLIENT_ENCODING complete CONN_STATUS_READY]
     /\ Forall (fun st => directive st <> complete) init)
  /\
  status established = CONN_STATUS_READY.
Proof.
  induction ws as [| w ws IH]; intros self established Hc Ha Hin Hend.
  - discriminate Hend.
  - cbn [wait_loop] in *.
    destruct (handshake_step w self Hc Ha Hin) as [Hc' [Ha' [Hwait Hdone]]].
    destruct (keeps_waiting (result (psyco_conn_poll w self))) eqn:K.
    + cbn [fst snd] in *.
      specialize (Hwait eq_refl).
      assert (Ha'' : async (final (psyco_conn_poll w self)) <> 0)
        by (rewrite Ha'; exact Ha).
      destruct Hwait as [Hstay | [Hnext Hdir]].
      * (* the status is kept *)
        assert (Hin' : in_handshake (status (final (psyco_conn_poll w self))) = true)
          by (rewrite Hstay; exact Hin).
        destruct (IH _ established Hc' Ha'' Hin' Hend)
          as [Hvis [Hall [[init [Hsteps Hinit]] Hready]]].
        rewrite Hstay in Hvis.
        split; [| split; [| split]].
        -- unfold visited in *. cbn [map after compress].
           rewrite Hstay, status_eqb_refl. exact Hvis.
        -- constructor; [| exact Hall].
           cbn. intros Hne. rewrite Hstay in Hne. contradiction.
        -- exists (mkStep (status self) (result (psyco_conn_poll w self))
                      (status (final (psyco_conn_poll w self))) :: init).
           split; [rewrite Hsteps; reflexivity |].
           constructor; [| exact Hinit].
           cbn. apply keeps_waiting_not_complete. exact K.
        -- exact Hready.
      * (* the next status is entered *)
        assert (Hin' : in_handshake (status (final (psyco_conn_poll w self))) = true).
        { rewrite Hnext. rewrite Hdir in K.
          destruct (status self); try discriminate Hin; try reflexivity.
          discriminate K. }
        destruct (IH _ established Hc' Ha'' Hin' Hend)
          as [Hvis [Hall [[init [Hsteps Hinit]] Hready]]].
        split; [| split; [| split]].
        -- unfold visited in *. cbn [map after].
           rewrite Hnext in *.
           destruct (status self); try discriminate Hin;
             cbn [compress map after] in *; cbn in Hvis |- *;
             rewrite Hvis; reflexivity.
        -- constructor; [| exact Hall].
           cbn. intros _. rewrite Hnext. exact Hdir.
        -- exists (mkStep (status self) (result (psyco_conn_poll w self))
                      (status (final (psyco_conn_poll w self))) :: init).
           split; [rewrite Hsteps; reflexivity |].
           constructor; [| exact Hinit].
           cbn. apply keeps_waiting_not_complete. exact K.
        -- exact Hready.
    + cbn [fst snd] in *.
      destruct (is_complete (result (psyco_conn_poll w self))) eqn:D;
        [| discriminate Hend].
      injection Hend as <-.
      destruct (Hdone eq_refl) as [Hs [Hs' Hr]].
      rewrite Hs, Hs', Hr.
      split; [reflexivity |].
      split; [constructor; [intros _; reflexivity | constructor] |].
      split; [exists []; split; [reflexivity | constructor] |].
      reflexivity.
Qed.

(** C1.  A caller that drives an open asynchronous connection from
    [CONN_STATUS_SETUP] with repeated [poll()] calls until [poll()] answers
    [complete] sees the status go through exactly setup, connecting,
    sendingDateStyle, sentDateStyle, fetchingDateStyle, sendingEncoding,
    sentEncoding, fetchingEncoding, ready; the call that enters a sending
    status returns [waitWritable], the call that enters a fetching status
    returns [waitReadable], and [complete] is returned once, by the last
    call, which moves the status to ready. *)
Theorem async_handshake_sequence (ws : list env) (self established : connectionObject) :
  closed self = 0 -> async self <> 0 -> status self = CONN_STATUS_SETUP ->
  snd (wait_loop ws self) = Some established ->
  visited CONN_STATUS_SETUP (fst (wait_loop ws self)) = handshake_sequence
  /\
  (forall st, In st (fst (wait_loop ws self)) -> before st <> after st ->
     ((after st = CONN_STATUS_SEND_DATESTYLE \/
       after st = CONN_STATUS_SEND_CLIENT_ENCODING) ->
      directive st = waitWritable) /\
     ((after st = CONN_STATUS_GET_DATESTYLE \/
       after st = CONN_STATUS_GET_CLIENT_ENCODING) ->
      directive st = waitReadable))
  /\
  (exists init,
     fst (wait_loop ws self) =
       init ++ [mkStep CONN_STATUS_GET_CLIENT_ENCODING complete CONN_STATUS_READY]
     /\ Forall (fun st => directive st <> complete) init)
  /\
  status established = CONN_STATUS_READY.
Proof.
  intros Hc Ha Hs Hend.
  assert (Hin : in_handshake (status self) = true) by (rewrite Hs; reflexivity).
  destruct (wait_loop_from ws self established Hc Ha Hin Hend)
    as [Hvis [Hall [Hlast Hready]]].
  rewrite Hs in Hvis.
  split; [exact Hvis |].
  split; [| split; [exact Hlast | exact Hready]].
  intros st Hst Hne.
  rewrite Forall_forall in Hall. specialize (Hall st Hst Hne).
  split; intros [E | E]; rewrite Hall, E; reflexivity.
Qed.

Lemma async_handshake_sequence_witness :
  closed fresh_async = 0 /\ async fresh_async <> 0 /\
  status fresh_async = CONN_STATUS_SETUP /\
  snd (wait_loop smooth_handshake fresh_async) = Some established_sample /\
  visited CONN_STATUS_SETUP (fst (wait_loop smooth_handshake fresh_async)) =
    handshake_sequence.
Proof.
  assert (Ha : async fresh_async <> 0) by (cbn; lia).
  assert (Hend : snd (wait_loop smooth_handshake fresh_async) =
                 Some established_sample) by (vm_compute; reflexivity).
  split; [reflexivity |]. split; [exact Ha |]. split; [reflexivity |].
  split; [exact Hend |].
  exact (proj1 (async_handshake_sequence smooth_handshake fresh_async
                  established_sample eq_refl Ha eq_refl Hend)).
Defined.

(** Against a transport that answers at once, every call of the handshake
    enters the next status. *)
Lemma quiet_step (self : connectionObject) :
  closed self = 0 -> async self <> 0 -> in_handshake (status self) = true ->
  lock self = false ->
  result (psyco_conn_poll quiet self) = entering (next_status (status self)) /\
  status (final (psyco_conn_poll quiet self)) = next_status (status self) /\
  closed (final (psyco_conn_poll quiet self)) = 0 /\
  async (final (psyco_conn_poll quiet self)) = async self /\
  lock (final (psyco_conn_poll quiet self)) = false.
Proof.
  intros Hc Ha Hin Hl. destruct self. cbn in Hc, Ha, Hin, Hl. subst.
  unfold_poll. cbn.
  destruct (Z.eqb_spec async0 0) as [E | _]; [contradiction |]. cbn.
  destruct status0; try discriminate Hin; cbn; repeat split; reflexivity.
Qed.

(** The hypothesis of the handshake theorem can be met from every status of
    the handshake: with enough calls against such a transport the wait loop
    ends on [complete], in [CONN_STATUS_READY]. *)
Lemma wait_loop_quiet (n : nat) :
  forall self,
  closed self = 0 -> async self <> 0 -> in_handshake (status self) = true ->
  lock self = false ->
  (8 - rank (status self) <= n)%nat ->
  exists established,
    snd (wait_loop (repeat quiet n) self) = Some established /\
    status established = CONN_STATUS_READY.
Proof.
  induction n as [| n IH]; intros self Hc Ha Hin Hl Hn.
  - unfold in_handshake in Hin. apply Nat.ltb_lt in Hin. lia.
  - cbn [repeat wait_loop].
    destruct (quiet_step self Hc Ha Hin Hl) as [Hr [Hs [Hc' [Ha' Hl']]]].
    rewrite Hr.
    destruct (conn_status_eq_dec (status self) CONN_STATUS_GET_CLIENT_ENCODING)
      as [Elast | Elast].
    + rewrite Elast in *. cbn.
      eexists. split; [reflexivity | exact Hs].
    + assert (K : keeps_waiting (entering (next_status (status self))) = true).
      { destruct (status self); try discriminate Hin; try reflexivity.
        contradiction. }
      rewrite K. cbn [fst snd].
      apply IH; try assumption.
      * rewrite Ha'. exact Ha.
      * rewrite Hs.
        destruct (status self); try discriminate Hin; try reflexivity.
        contradiction.
      * rewrite Hs.
        destruct (status self); try discriminate Hin; cbn in Hn |- *; try lia.
Qed.

(** ** The stored connection string *)

(** [connection_setup] hands the connection string to [conn_connect] once,
    as it was given, before the stored copy is touched. *)
Lemma connection_setup_connects_once (w : env) (d : string) (a : Z)
    (self : connectionObject) :
  calls (connection_setup w d a self) =
    [Ev_pthread_mutex_init; Ev_conn_connect d a].
Proof.
  unfold connection_setup. unfold_monad.
  destruct (obfuscate_password _); reflexivity.
Qed.

Lemma string_take_append (pre s : string) :
  string_take (String.length pre) (pre ++ s) = pre.
Proof.
  induction pre as [| c pre IH]; cbn.
  - destruct s; reflexivity.
  - rewrite IH. reflexivity.
Qed.

Lemma string_drop_append (pre s : string) :
  string_drop (String.length pre) (pre ++ s) = s.
Proof.
  induction pre as [| c pre IH]; cbn; [destruct s; reflexivity | exact IH].
Qed.

Lemma string_length_append (a b : string) :
  String.length (a ++ b) = (String.length a + String.length b)%nat.
Proof. induction a as [| c a IH]; cbn; [reflexivity | rewrite IH; reflexivity]. Qed.

Lemma string_append_assoc (a b c : string) :
  ((a ++ b) ++ c = a ++ (b ++ c))%string.
Proof. induction a as [| x a IH]; cbn; [reflexivity | rewrite IH; reflexivity]. Qed.

Lemma obfuscate_value (value rest : string) :
  plain_value value = true -> delimited rest = true ->
  obfuscate (value ++ rest) = (mask value ++ rest)%string.
Proof.
  intros Hv Hr. induction value as [| c v IH]; cbn in *.
  - destruct rest as [| c r]; [reflexivity |].
    cbn in *. rewrite Hr, orb_true_r. reflexivity.
  - apply andb_true_iff in Hv. destruct Hv as [Hc Hv].
    apply negb_true_iff in Hc. rewrite Hc, (IH Hv). reflexivity.
Qed.

(** What the obfuscation achieves: when the first "password" of the string
    is the key itself, directly followed by '=' and a value without spaces,
    every character of the value is replaced by 'x' and nothing else
    changes. *)
Lemma obfuscate_password_key_first (pre value rest : string) :
  strstr (pre ++ "password=" ++ value ++ rest) "password" =
    Some (String.length pre) ->
  plain_value value = true -> delimited rest = true ->
  obfuscate_password (pre ++ "password=" ++ value ++ rest) =
    Some (pre ++ "password=" ++ mask value ++ rest)%string.
Proof.
  intros Hpos Hv Hr. unfold obfuscate_password. rewrite Hpos.
  replace (String.length pre + 9)%nat
    with (String.length (pre ++ "password=")).
  2: { rewrite string_length_append. reflexivity. }
  rewrite <- (string_append_assoc pre "password=" (value ++ rest)).
  rewrite string_take_append, string_drop_append.
  rewrite (string_length_append (pre ++ "password=")).
  destruct (Nat.leb_spec (String.length (pre ++ "password="))
              (String.length (pre ++ "password=") + String.length (value ++ rest)))
    as [_ | Hlt]; [| lia].
  rewrite (obfuscate_value value rest Hv Hr).
  rewrite string_append_assoc. reflexivity.
Qed.

(** C3.  The stored copy can keep the password.  For the well-formed
    connection string "dbname=passwords user=bob password=secret",
    [connection_setup] succeeds, hands the string to [conn_connect] once,
    and stores it unchanged: [strstr] stops at the "password" inside
    "passwords", nine bytes further on is the space that ends the loop,
    and "secret" stays in the stored copy. *)
Theorem connection_setup_keeps_password :
  result (connection_setup quiet dsn_passwords 1 blank) = Return 0 /\
  calls (connection_setup quiet dsn_passwords 1 blank) =
    [Ev_pthread_mutex_init; Ev_conn_connect dsn_passwords 1] /\
  dsn (final (connection_setup quiet dsn_passwords 1 blank)) = dsn_passwords /\
  contains (dsn (final (connection_setup quiet dsn_passwords 1 blank))) "secret"
    = true.
Proof. repeat split; reflexivity. Qed.

(** The masking can also run off the stored copy: when the string ends in
    "password" the pointer [pos+9] is one byte past the block. *)
Lemma connection_setup_past_the_end :
  result (connection_setup quiet "dbname=password" 0 blank) = Undefined.
Proof. reflexivity. Qed.

(** ** Sanity checks of the definitions *)

Example obfuscate_password_usual :
  obfuscate_password "dbname=test user=bob password=secret host=db1" =
    Some "dbname=test user=bob password=xxxxxx host=db1".
Proof.
  exact (obfuscate_password_key_first "dbname=test user=bob " "secret" " host=db1"
           eq_refl eq_refl eq_refl).
Qed.

Example obfuscate_password_spaced_equals :
  obfuscate_password "dbname=test password = secret" =
    Some "dbname=test password x secret".
Proof. reflexivity. Qed.

Example guard_discipline_rejects_bare_call :
  guard_discipline false [Ev_PQconnectPoll] = false.
Proof. reflexivity. Qed.

Example guard_discipline_rejects_held_exit :
  guard_discipline false [Ev_pthread_mutex_lock; Ev_PQconnectPoll] = false.
Proof. reflexivity. Qed.

Example normalize_latin1 :
  normalize_encoding_name "latin-1" = "LATIN1".
Proof. reflexivity. Qed.

Example handshake_fails_with_transport_text :
  psyco_conn_poll failing connecting =
    mkRun (Raise (PyErr_SetString OperationalError "could not connect to server"))
          connecting
          [Ev_PyEval_SaveThread; Ev_pthread_mutex_lock; Ev_PQconnectPoll;
           Ev_pthread_mutex_unlock; Ev_PyEval_RestoreThread; Ev_PQerrorMessage].
Proof. reflexivity. Qed.

(** * Further properties of [connection_type.c] *)

(** ** The closed check *)

Ltac refuse_closed H :=
  eexists; split;
  [ apply bind_raise; apply closed_guard_closed; exact H | reflexivity ].

(** The converters on optional arguments: the value is stored as it is,
    or the converter's exception is set. *)
Lemma nul_free_c_string (s : string) : nul_free s = true <-> c_string s.
Proof.
  unfold nul_free, c_string. rewrite forallb_forall. split.
  - intros H Hin. specialize (H NUL Hin). discriminate H.
  - intros H c Hin. apply negb_true_iff.
    destruct (Ascii.eqb_spec c NUL) as [-> | _]; [contradiction | reflexivity].
Qed.

Lemma convert_optional_i_cases (a : option Z) :
  (int_arg a /\ convert_optional convert_i a = inr a) \/
  (~ int_arg a /\
   exists e, convert_optional convert_i a = inl e /\
             exc_type e = PyExc_OverflowError).
Proof.
  destruct a as [n |]; [| left; split; [exact I | reflexivity]].
  cbn [int_arg convert_optional].
  assert (Hdec : INT_MIN <= n <= INT_MAX \/ ~ (INT_MIN <= n <= INT_MAX)) by lia.
  destruct Hdec as [Hfits | Hbig].
  - left. split; [exact Hfits |]. rewrite (convert_i_fits n Hfits). reflexivity.
  - right. split; [exact Hbig |].
    destruct (convert_i_overflow n Hbig) as [e [He Ht]].
    exists e. rewrite He. split; [reflexivity | exact Ht].
Qed.

Lemma convert_optional_s_cases (a : option string) :
  (str_arg a /\ convert_optional convert_s a = inr a) \/
  (~ str_arg a /\
   exists e, convert_optional convert_s a = inl e /\
             exc_type e = PyExc_TypeError).
Proof.
  destruct a as [t |]; [| left; split; [exact I | reflexivity]].
  cbn [str_arg convert_optional]. unfold convert_s.
  destruct (nul_free t) eqn:E.
  - left. split; [apply nul_free_c_string; exact E | reflexivity].
  - right. split.
    + intros H. apply nul_free_c_string in H. congruence.
    + eexists. split; reflexivity.
Qed.

Lemma cursor_args_cases (w : env) (name : option string) (factory : option nat)
    (self : connectionObject) :
  (str_arg name /\
   psyco_conn_cursor_args w name factory self =
   psyco_conn_cursor w name factory self) \/
  (~ str_arg name /\
   exists e, psyco_conn_cursor_args w name factory self = mkRun (Raise e) self [] /\
             exc_type e = PyExc_TypeError).
Proof.
  unfold psyco_conn_cursor_args.
  destruct (convert_optional_s_cases name) as [[Hok E] | [Hbad [e [E Ht]]]].
  - left. split; [exact Hok |]. exact (bind_PyArg_stored _ _ _ _ E).
  - right. split; [exact Hbad |]. exists e.
    split; [exact (bind_PyArg_failed _ _ _ _ E) | exact Ht].
Qed.

Lemma lobject_args_cases (w : env) (oid : option Z) (smode : option string)
    (new_oid : option Z) (new_file : option string) (factory : option nat)
    (self : connectionObject) :
  (int_arg oid /\ str_arg smode /\ int_arg new_oid /\ str_arg new_file /\
   psyco_conn_lobject_args w oid smode new_oid new_file factory self =
   psyco_conn_lobject w (stored_or InvalidOid oid) smode
     (stored_or InvalidOid new_oid) new_file factory self) \/
  (~ (int_arg oid /\ str_arg smode /\ int_arg new_oid /\ str_arg new_file) /\
   exists e,
     psyco_conn_lobject_args w oid smode new_oid new_file factory self =
       mkRun (Raise e) self [] /\
     (exc_type e = PyExc_OverflowError \/ exc_type e = PyExc_TypeError)).
Proof.
  unfold psyco_conn_lobject_args.
  destruct (convert_optional_i_cases oid) as [[H1 E1] | [H1 [e [E Ht]]]].
  2: { right. split; [tauto |]. exists e.
       split; [exact (bind_PyArg_failed _ _ _ _ E) | left; exact Ht]. }
  rewrite (bind_PyArg_stored _ _ _ _ E1).
  destruct (convert_optional_s_cases smode) as [[H2 E2] | [H2 [e [E Ht]]]].
  2: { right. split; [tauto |]. exists e.
       split; [exact (bind_PyArg_failed _ _ _ _ E) | right; exact Ht]. }
  rewrite (bind_PyArg_stored _ _ _ _ E2).
  destruct (convert_optional_i_cases new_oid) as [[H3 E3] | [H3 [e [E Ht]]]].
  2: { right. split; [tauto |]. exists e.
       split; [exact (bind_PyArg_failed _ _ _ _ E) | left; exact Ht]. }
  rewrite (bind_PyArg_stored _ _ _ _ E3).
  destruct (convert_optional_s_cases new_file) as [[H4 E4] | [H4 [e [E Ht]]]].
  2: { right. split; [tauto |]. exists e.
       split; [exact (bind_PyArg_failed _ _ _ _ E) | right; exact Ht]. }
  rewrite (bind_PyArg_stored _ _ _ _ E4).
  left. repeat (split; [assumption |]). reflexivity.
Qed.

(** X1.  A closed connection is refused by every method that has the
    closed check: [ConnectionClosed] is raised, nothing is called, the
    struct is untouched, whatever the mode and the status.  [close],
    [commit], [rollback], [set_isolation_level], [set_client_encoding],
    [reset] and the four getters start with the check, so for them this
    holds for every argument.  [cursor] and [lobject] parse their
    arguments first: they refuse a closed connection in this way when the
    arguments parse; with an argument that does not parse (an integer that
    does not fit a C [int], a string with an embedded NUL) the exception is
    the parser's, on a closed connection too, again with nothing called and
    the struct untouched. *)
Theorem closed_connection_refuses (w : env) (q : libpq_info)
    (self : connectionObject) :
  closed self <> 0 ->
  (forall name factory,
     (str_arg name ->
      refused_closed self (psyco_conn_cursor_args w name factory self)) /\
     (~ str_arg name ->
      exists e,
        psyco_conn_cursor_args w name factory self = mkRun (Raise e) self [] /\
        exc_type e = PyExc_TypeError)) /\
  refused_closed self (psyco_conn_close w self) /\
  refused_closed self (psyco_conn_commit w self) /\
  refused_closed self (psyco_conn_rollback w self) /\
  (forall level, refused_closed self (psyco_conn_set_isolation_level w level self)) /\
  (forall enc, refused_closed self (psyco_conn_set_client_encoding w enc self)) /\
  (forall oid smode new_oid new_file factory,
     (int_arg oid -> str_arg smode -> int_arg new_oid -> str_arg new_file ->
      refused_closed self
        (psyco_conn_lobject_args w oid smode new_oid new_file factory self)) /\
     (~ (int_arg oid /\ str_arg smode /\ int_arg new_oid /\ str_arg new_file) ->
      exists e,
        psyco_conn_lobject_args w oid smode new_oid new_file factory self =
          mkRun (Raise e) self [] /\
        (exc_type e = PyExc_OverflowError \/ exc_type e = PyExc_TypeError))) /\
  refused_closed self (psyco_conn_reset w self) /\
  refused_closed self (psyco_conn_get_transaction_status q self) /\
  (forall param, refused_closed self (psyco_conn_get_parameter_status q param self)) /\
  refused_closed self (psyco_conn_get_backend_pid q self) /\
  refused_closed self (psyco_conn_fileno q self).
Proof.
  intros H.
  split.
  { intros name factory.
    destruct (cursor_args_cases w name factory self) as [[Hok E] | [Hbad Hex]].
    - split; [| intros Hn; contradiction].
      intros _. rewrite E. unfold refused_closed, psyco_conn_cursor.
      refuse_closed H.
    - split; [intros Hn; contradiction | intros _; exact Hex]. }
  split; [unfold refused_closed, psyco_conn_close; refuse_closed H |].
  split; [unfold refused_closed, psyco_conn_commit; refuse_closed H |].
  split; [unfold refused_closed, psyco_conn_rollback; refuse_closed H |].
  split; [intros level; unfold refused_closed, psyco_conn_set_isolation_level;
          refuse_closed H |].
  split; [intros enc; unfold refused_closed, psyco_conn_set_client_encoding;
          refuse_closed H |].
  split.
  { intros oid smode new_oid new_file factory.
    destruct (lobject_args_cases w oid smode new_oid new_file factory self)
      as [[H1 [H2 [H3 [H4 E]]]] | [Hbad Hex]].
    - split; [| intros Hn; exfalso; apply Hn; tauto].
      intros _ _ _ _. rewrite E. unfold refused_closed, psyco_conn_lobject.
      refuse_closed H.
    - split; [intros; exfalso; apply Hbad; tauto | intros _; exact Hex]. }
  split; [unfold refused_closed, psyco_conn_reset; refuse_closed H |].
  split; [unfold refused_closed, psyco_conn_get_transaction_status;
          refuse_closed H |].
  split; [intros param; unfold refused_closed, psyco_conn_get_parameter_status;
          refuse_closed H |].
  split; [unfold refused_closed, psyco_conn_get_backend_pid; refuse_closed H |].
  unfold refused_closed, psyco_conn_fileno. refuse_closed H.
Qed.

Lemma closed_connection_refuses_witness :
  closed closed_connection <> 0 /\
  refused_closed closed_connection (psyco_conn_commit quiet closed_connection) /\
  refused_closed closed_connection (psyco_conn_fileno sample_info closed_connection) /\
  refused_closed closed_connection
    (psyco_conn_lobject_args quiet (Some 17) (Some "r") None None None
       closed_connection) /\
  (exists e,
     psyco_conn_lobject_args quiet (Some 4294967295) (Some "r") None None None
       closed_connection = mkRun (Raise e) closed_connection [] /\
     (exc_type e = PyExc_OverflowError \/ exc_type e = PyExc_TypeError)).
Proof.
  assert (H : closed closed_connection <> 0) by (cbn; lia).
  pose proof (closed_connection_refuses quiet sample_info closed_connection H)
    as [_ [_ [Hcommit [_ [_ [_ [Hlobject [_ [_ [_ [_ Hfileno]]]]]]]]]]].
  split; [exact H |]. split; [exact Hcommit |]. split; [exact Hfileno |].
  split.
  - apply (proj1 (Hlobject (Some 17) (Some "r"%string) None None None)).
    + cbn. unfold INT_MIN, INT_MAX. lia.
    + cbn. apply nul_free_c_string. reflexivity.
    + exact I.
    + exact I.
  - apply (proj2 (Hlobject (Some 4294967295) (Some "r"%string) None None None)).
    intros [Hoid _]. cbn in Hoid. unfold INT_MIN, INT_MAX in Hoid. lia.
Defined.

(** X2.  [close()] on an open connection makes one call, [conn_close], and
    returns [None].  It is not idempotent: when [conn_close] sets the
    [closed] flag, a second [close()] raises [ConnectionClosed] without
    calling [conn_close] again, and so does [poll()]. *)
Theorem close_is_final (w w' : env) (self : connectionObject) :
  closed self = 0 ->
  (forall c, closed (conn_close w c) <> 0) ->
  psyco_conn_close w self =
    mkRun (Return Py_None) (conn_close w self) [Ev_conn_close]
  /\
  refused_closed (conn_close w self) (psyco_conn_close w' (conn_close w self))
  /\
  refused_closed (conn_close w self) (psyco_conn_poll w' (conn_close w self)).
Proof.
  intros Hopen Hsets. split; [| split].
  - unfold psyco_conn_close.
    rewrite (bind_return _ _ _ _ _ (closed_guard_open self Hopen)).
    reflexivity.
  - unfold refused_closed, psyco_conn_close. refuse_closed (Hsets self).
  - unfold refused_closed, psyco_conn_poll. refuse_closed (Hsets self).
Qed.

Lemma close_is_final_witness :
  closed ready_connection = 0 /\
  (forall c, closed (conn_close closing c) <> 0) /\
  psyco_conn_close closing ready_connection =
    mkRun (Return Py_None) (conn_close closing ready_connection) [Ev_conn_close]
  /\
  refused_closed (conn_close closing ready_connection)
    (psyco_conn_close closing (conn_close closing ready_connection)).
Proof.
  assert (Hsets : forall c, closed (conn_close closing c) <> 0)
    by (intros c; cbn; lia).
  pose proof (close_is_final closing closing ready_connection eq_refl Hsets)
    as [H1 [H2 _]].
  split; [reflexivity |]. split; [exact Hsets |]. split; [exact H1 | exact H2].
Defined.

(** ** The getters *)



(** X4.  [fileno()], [get_backend_pid()] and [get_transaction_status()]
    check nothing but the [closed] flag: on every open connection, also an
    asynchronous one in the middle of its handshake, they return libpq's
    answer as an integer and leave the struct untouched. *)
Theorem integer_getters_open (q : libpq_info) (self : connectionObject) :
  closed self = 0 ->
  psyco_conn_fileno q self =
    mkRun (Return (PyInt_FromLong (PQsocket q))) self [] /\
  psyco_conn_get_backend_pid q self =
    mkRun (Return (PyInt_FromLong (PQbackendPID q))) self [] /\
  psyco_conn_get_transaction_status q self =
    mkRun (Return (PyInt_FromLong (PQtransactionStatus q))) self [].
Proof.
  intros Hopen.
  unfold psyco_conn_fileno, psyco_conn_get_backend_pid,
    psyco_conn_get_transaction_status.
  rewrite !(bind_return _ _ _ _ _ (closed_guard_open self Hopen)).
  repeat split; reflexivity.
Qed.

Lemma integer_getters_open_witness :
  closed connecting = 0 /\
  psyco_conn_fileno sample_info connecting =
    mkRun (Return (PyInt_FromLong 7)) connecting [].
Proof.
  split; [reflexivity |].
  exact (proj1 (integer_getters_open sample_info connecting eq_refl)).
Defined.

(** ** Cursors *)

Lemma cursor_open (w : env) (name : option string) (factory : option nat)
    (self : connectionObject) :
  closed self = 0 ->
  (status self = CONN_STATUS_READY \/ status self = CONN_STATUS_BEGIN) ->
  name = None \/ async self <> 1 ->
  psyco_conn_cursor w name factory self =
  (emit (Ev_PyObject_CallFunction (chosen_factory cursorType factory) name) ;;
   match PyObject_CallFunction w (chosen_factory cursorType factory) with
   | None => raise (callee_exception w)
   | Some obj =>
       if PyObject_IsInstance w obj =? 0
       then raise (PyErr_SetString PyExc_TypeError
                     "cursor factory must be subclass of psycopg2._psycopg.cursor")
       else ret obj
   end) self.
Proof.
  intros Hopen Hs Hn. unfold psyco_conn_cursor.
  rewrite (bind_return _ _ _ _ _ (closed_guard_open self Hopen)), bind_get.
  assert (E : negb (conn_status_eqb (status self) CONN_STATUS_READY) &&
              negb (conn_status_eqb (status self) CONN_STATUS_BEGIN) = false)
    by (destruct Hs as [-> | ->]; reflexivity).
  rewrite E.
  assert (E' : is_some name && (async self =? 1) = false).
  { destruct Hn as [-> | Hn]; [reflexivity |].
    apply andb_false_iff. right. apply Z.eqb_neq. exact Hn. }
  rewrite E'. reflexivity.
Qed.

(** X5.  While the status is neither [CONN_STATUS_READY] nor
    [CONN_STATUS_BEGIN], an open connection hands out no cursor at all,
    named or not, in either mode: the request fails with the
    [OperationalError] "asynchronous connection attempt underway" before
    the factory is called. *)
Theorem cursor_refused_during_handshake (w : env) (name : option string)
    (factory : option nat) (self : connectionObject) :
  closed self = 0 ->
  status self <> CONN_STATUS_READY -> status self <> CONN_STATUS_BEGIN ->
  psyco_conn_cursor w name factory self =
    mkRun (Raise (PyErr_SetString OperationalError
                    "asynchronous connection attempt underway"))
          self [].
Proof.
  intros Hopen Hr Hb. unfold psyco_conn_cursor.
  rewrite (bind_return _ _ _ _ _ (closed_guard_open self Hopen)), bind_get.
  rewrite (status_eqb_neq _ _ Hr), (status_eqb_neq _ _ Hb). reflexivity.
Qed.

Lemma cursor_refused_during_handshake_witness :
  closed sync_ready = 0 /\
  psyco_conn_cursor quiet None None (set_status CONN_STATUS_SETUP sync_ready) =
    mkRun (Raise (PyErr_SetString OperationalError
                    "asynchronous connection attempt underway"))
          (set_status CONN_STATUS_SETUP sync_ready) [].
Proof.
  split; [reflexivity |].
  apply (cursor_refused_during_handshake quiet None None
           (set_status CONN_STATUS_SETUP sync_ready));
    [reflexivity | discriminate | discriminate].
Defined.



(** X7.  What [cursor()] returns is an object the factory made that
    [PyObject_IsInstance] did not answer 0 for; an answer of 0 gives the
    [TypeError] of the factory check, a factory that fails gives its own
    exception.  Only the answer 0 is tested, so the error answer -1 of
    [PyObject_IsInstance] lets the object through. *)
Theorem cursor_product_checked (w : env) (name : option string)
    (factory : option nat) (self : connectionObject) :
  closed self = 0 ->
  (status self = CONN_STATUS_READY \/ status self = CONN_STATUS_BEGIN) ->
  name = None \/ async self <> 1 ->
  (forall obj,
     result (psyco_conn_cursor w name factory self) = Return obj <->
     PyObject_CallFunction w (chosen_factory cursorType factory) = Some obj /\
     PyObject_IsInstance w obj <> 0)
  /\
  (forall obj,
     PyObject_CallFunction w (chosen_factory cursorType factory) = Some obj ->
     PyObject_IsInstance w obj = 0 ->
     result (psyco_conn_cursor w name factory self) =
       Raise (PyErr_SetString PyExc_TypeError
                "cursor factory must be subclass of psycopg2._psycopg.cursor"))
  /\
  (PyObject_CallFunction w (chosen_factory cursorType factory) = None ->
   result (psyco_conn_cursor w name factory self) = Raise (callee_exception w)).
Proof.
  intros Hopen Hs Hn.
  rewrite (cursor_open w name factory self Hopen Hs Hn). unfold_monad.
  destruct (PyObject_CallFunction w _) as [o |] eqn:Hcall.
  - destruct (Z.eqb_spec (PyObject_IsInstance w o) 0) as [Hi | Hi]; cbn.
    + split; [| split].
      * intros obj. split; [discriminate |].
        intros [E Hne]. injection E as <-. contradiction.
      * intros obj E _. reflexivity.
      * discriminate.
    + split; [| split].
      * intros obj. split.
        -- intros E. injection E as <-. split; [reflexivity | exact Hi].
        -- intros [E _]. injection E as <-. reflexivity.
      * intros obj E Hz. injection E as <-. contradiction.
      * discriminate.
  - cbn. split; [| split].
    + intros obj. split; [discriminate | intros [E _]; discriminate E].
    + discriminate.
    + reflexivity.
Qed.

Lemma cursor_product_checked_witness :
  result (psyco_conn_cursor quiet None (Some 5%nat) sync_ready) =
    Return (PyInstance 5).
Proof.
  apply (proj1 (cursor_product_checked quiet None (Some 5%nat) sync_ready
                  eq_refl (or_introl eq_refl) (or_introl eq_refl))).
  split; [reflexivity | cbn; lia].
Defined.

(** ** Large objects *)

(** X8.  The mode string of [lobject()] is read by its first characters
    only.  A missing string gives mode 0; a string starting with "rw" gives
    [INV_READ + INV_WRITE], any other string starting with 'r' gives
    [INV_READ], with 'w' gives [INV_WRITE] alone, with 'n' gives -1; every
    other string, the empty one included, is rejected.  So a mode is
    accepted exactly when it starts with 'r', 'w' or 'n'. *)
Theorem lobject_mode_letters (smode : string) :
  lobject_mode None = Some 0 /\
  (lobject_mode (Some smode) = None <-> mode_letter smode = false) /\
  (forall rest, lobject_mode (Some ("rw" ++ rest)%string) = Some (INV_READ + INV_WRITE)) /\
  (forall c rest, c <> "w"%char ->
     lobject_mode (Some (String "r" (String c rest))) = Some INV_READ) /\
  (forall rest, lobject_mode (Some (String "w" rest)) = Some INV_WRITE) /\
  (forall rest, lobject_mode (Some (String "n" rest)) = Some (-1)) /\
  lobject_mode (Some "r") = Some INV_READ.
Proof.
  split; [reflexivity |].
  split.
  { destruct smode as [| c s]; [split; reflexivity |].
    unfold lobject_mode, mode_letter.
    destruct c as [[] [] [] [] [] [] [] []]; cbn;
      try (split; intros H; solve [reflexivity | discriminate H]).
    (* c = 'r': the test for "rw" looks at the second character *)
    destruct (prefix "w" s); split; intros H; discriminate H. }
  split; [intros rest; cbn; destruct rest; reflexivity |].
  split.
  { intros c rest Hc.
    destruct c as [[] [] [] [] [] [] [] []];
      try reflexivity; exfalso; apply Hc; reflexivity. }
  repeat split; reflexivity.
Qed.

Lemma lobject_mode_letters_witness :
  lobject_mode (Some "read") = Some INV_READ /\
  lobject_mode (Some "wr") = Some INV_WRITE /\
  (lobject_mode (Some "") = None <-> mode_letter "" = false).
Proof.
  pose proof (lobject_mode_letters "") as [_ [H1 [_ [H2 [H3 _]]]]].
  split; [apply (H2 "e"%char "ad"); discriminate |].
  split; [exact (H3 "r") | exact H1].
Defined.




(** ** Reset *)

(** X10.  [reset()] on an open synchronous connection calls [pq_reset]
    first.  When [pq_reset] fails, [conn_setup] is not called and the
    failure is passed on; otherwise [conn_setup] runs on the struct
    [pq_reset] left, and [None] is returned exactly when both succeed. *)
Theorem reset_order (w : env) (self : connectionObject) :
  closed self = 0 -> async self <> 1 ->
  (snd (pq_reset w self) < 0 ->
   psyco_conn_reset w self =
     mkRun (Raise (callee_exception w)) (fst (pq_reset w self)) [Ev_pq_reset])
  /\
  (0 <= snd (pq_reset w self) ->
   calls (psyco_conn_reset w self) = [Ev_pq_reset; Ev_conn_setup] /\
   final (psyco_conn_reset w self) = fst (conn_setup w (fst (pq_reset w self))) /\
   (result (psyco_conn_reset w self) = Return Py_None <->
    0 <= snd (conn_setup w (fst (pq_reset w self)))))
  /\
  (result (psyco_conn_reset w self) = Return Py_None <->
   0 <= snd (pq_reset w self) /\
   0 <= snd (conn_setup w (fst (pq_reset w self)))).
Proof.
  intros Hc Ha. unfold psyco_conn_reset.
  rewrite (bind_return _ _ _ _ _ (closed_guard_open self Hc)).
  rewrite (bind_return _ _ _ _ _ (async_guard_sync _ self Ha)).
  unfold_monad.
  destruct (Z.ltb_spec (snd (pq_reset w self)) 0) as [H1 | H1]; cbn.
  - split; [intros _; reflexivity |].
    split; [intros H; lia |].
    split; [discriminate | intros [H _]; lia].
  - destruct (Z.ltb_spec (snd (conn_setup w (fst (pq_reset w self)))) 0)
      as [H2 | H2]; cbn.
    + split; [intros H; lia |].
      split.
      * intros _. repeat split; try reflexivity; try discriminate.
        intros H; lia.
      * split; [discriminate | intros [_ H]; lia].
    + split; [intros H; lia |].
      split.
      * intros _. repeat split; try reflexivity. intros _. exact H2.
      * split; [intros _; split; assumption | reflexivity].
Qed.

Lemma reset_order_witness :
  closed sync_ready = 0 /\ async sync_ready <> 1 /\
  psyco_conn_reset reset_failing sync_ready =
    mkRun (Raise (callee_exception reset_failing)) sync_ready [Ev_pq_reset] /\
  calls (psyco_conn_reset quiet sync_ready) = [Ev_pq_reset; Ev_conn_setup].
Proof.
  assert (Ha : async sync_ready <> 1) by (cbn; lia).
  split; [reflexivity |]. split; [exact Ha |]. split.
  - apply (proj1 (reset_order reset_failing sync_ready eq_refl Ha)). cbn. lia.
  - apply (proj1 (proj2 (reset_order quiet sync_ready eq_refl Ha))). cbn. lia.
Defined.

(** ** More on client encoding names *)

Lemma set_client_encoding_open_sync (w : env) (enc : string)
    (self : connectionObject) :
  c_string enc -> closed self = 0 -> async self <> 1 ->
  psyco_conn_set_client_encoding w enc self =
  (res <- call (Ev_conn_set_client_encoding (normalize_encoding_name enc))
            (fun c => conn_set_client_encoding w c (normalize_encoding_name enc)) ;;
   if res =? 0 then ret Py_None else raise (callee_exception w)) self.
Proof.
  intros Hs Hc Ha. unfold psyco_conn_set_client_encoding.
  rewrite (bind_return _ _ _ _ _ (closed_guard_open self Hc)).
  rewrite (bind_return _ _ _ _ _ (async_guard_sync _ self Ha)).
  rewrite (encoding_buffer_spec enc Hs). reflexivity.
Qed.

Lemma toupper_shape (c : ascii) :
  is_lower (toupper c) = false /\
  (is_separator c = false -> is_separator (toupper c) = false) /\
  toupper (toupper c) = toupper c.
Proof.
  destruct c as [[] [] [] [] [] [] [] []]; vm_compute;
    repeat split; intros; congruence.
Qed.

Lemma normalized_chars_shape (l : list ascii) :
  Forall (fun c => is_separator c = false /\ is_lower c = false)
         (normalized_chars l).
Proof.
  induction l as [| c l IH]; [constructor |].
  destruct (is_separator c) eqn:Hsep.
  - rewrite (normalized_separator c l Hsep). exact IH.
  - rewrite (normalized_other c l Hsep). constructor; [| exact IH].
    destruct (toupper_shape c) as [Hl [Hs _]]. split; [exact (Hs Hsep) | exact Hl].
Qed.

Lemma normalized_chars_count (l : list ascii) :
  (List.length (normalized_chars l) + List.length (filter is_separator l)
   = List.length l)%nat.
Proof.
  induction l as [| c l IH]; [reflexivity |].
  destruct (is_separator c) eqn:Hsep.
  - rewrite (normalized_separator c l Hsep). cbn [filter]. rewrite Hsep.
    cbn [List.length]. lia.
  - rewrite (normalized_other c l Hsep). cbn [filter]. rewrite Hsep.
    cbn [List.length]. lia.
Qed.

Lemma normalized_chars_fixed (l : list ascii) :
  normalized_chars (normalized_chars l) = normalized_chars l.
Proof.
  induction l as [| c l IH]; [reflexivity |].
  destruct (is_separator c) eqn:Hsep.
  - rewrite (normalized_separator c l Hsep). exact IH.
  - rewrite (normalized_other c l Hsep).
    destruct (toupper_shape c) as [_ [Hs Hi]].
    rewrite (normalized_other _ _ (Hs Hsep)), Hi, IH. reflexivity.
Qed.

(** X11.  The name that [set_client_encoding] passes on contains no '-',
    no '_' and no lower-case ASCII letter, and it is shorter than the
    argument by exactly the number of '-' and '_' characters: the write
    index never overtakes the read index, so the block of
    [strlen(enc)+1] bytes always suffices, and an argument made of
    separators only (the empty one included) is passed on as the empty
    name. *)
Theorem set_client_encoding_request_shape (w : env) (self : connectionObject)
    (enc : string) :
  c_string enc -> closed self = 0 -> async self <> 1 ->
  exists name,
    calls (psyco_conn_set_client_encoding w enc self) =
      [Ev_conn_set_client_encoding name] /\
    Forall (fun c => is_separator c = false /\ is_lower c = false)
           (list_ascii_of_string name) /\
    (List.length (list_ascii_of_string name) +
     List.length (filter is_separator (list_ascii_of_string enc))
     = List.length (list_ascii_of_string enc))%nat.
Proof.
  intros Hs Hc Ha. exists (normalize_encoding_name enc).
  split; [| split].
  - rewrite (set_client_encoding_open_sync w enc self Hs Hc Ha). unfold_monad.
    destruct (snd (conn_set_client_encoding w self _) =? 0); reflexivity.
  - unfold normalize_encoding_name.
    rewrite list_ascii_of_string_of_list_ascii. apply normalized_chars_shape.
  - unfold normalize_encoding_name.
    rewrite list_ascii_of_string_of_list_ascii. apply normalized_chars_count.
Qed.

Lemma c_string_literal_check (s : string) :
  forallb (fun c => negb (c =? NUL)%char) (list_ascii_of_string s) = true ->
  c_string s.
Proof.
  intros H Hin. rewrite forallb_forall in H. specialize (H NUL Hin).
  discriminate H.
Qed.

Lemma set_client_encoding_request_shape_witness :
  exists name,
    calls (psyco_conn_set_client_encoding quiet "-_-" sync_ready) =
      [Ev_conn_set_client_encoding name] /\
    Forall (fun c => is_separator c = false /\ is_lower c = false)
           (list_ascii_of_string name) /\
    (List.length (list_ascii_of_string name) + 3 = 3)%nat.
Proof.
  assert (Ha : async sync_ready <> 1) by (cbn; lia).
  exact (set_client_encoding_request_shape quiet sync_ready "-_-"
           (c_string_literal_check "-_-" eq_refl) eq_refl Ha).
Defined.

(** X12.  Normalising is idempotent: calling [set_client_encoding] with a
    name that is already in the normalised form gives the same run as the
    original argument. *)
Theorem set_client_encoding_idempotent (w : env) (self : connectionObject)
    (enc : string) :
  c_string enc -> closed self = 0 -> async self <> 1 ->
  psyco_conn_set_client_encoding w (normalize_encoding_name enc) self =
  psyco_conn_set_client_encoding w enc self.
Proof.
  intros Hs Hc Ha.
  assert (Hn : c_string (normalize_encoding_name enc)).
  { unfold c_string, normalize_encoding_name.
    rewrite list_ascii_of_string_of_list_ascii.
    apply normalized_NUL_free. exact Hs. }
  rewrite (set_client_encoding_open_sync w _ self Hn Hc Ha).
  rewrite (set_client_encoding_open_sync w enc self Hs Hc Ha).
  assert (E : normalize_encoding_name (normalize_encoding_name enc) =
              normalize_encoding_name enc).
  { unfold normalize_encoding_name.
    rewrite list_ascii_of_string_of_list_ascii, normalized_chars_fixed.
    reflexivity. }
  rewrite E. reflexivity.
Qed.

Lemma set_client_encoding_idempotent_witness :
  psyco_conn_set_client_encoding quiet "UTF8" sync_ready =
  psyco_conn_set_client_encoding quiet "utf-8" sync_ready.
Proof.
  assert (Ha : async sync_ready <> 1) by (cbn; lia).
  exact (set_client_encoding_idempotent quiet sync_ready "utf-8"
           (c_string_literal_check "utf-8" eq_refl) eq_refl Ha).
Defined.

(** ** The connecting state *)

Lemma poll_connecting (w : env) (self : connectionObject) :
  closed self = 0 -> async self <> 0 -> status self = CONN_STATUS_ASYNC ->
  psyco_conn_poll w self = poll_connect_step w self.
Proof.
  intros Hc Ha Hs. rewrite (poll_open_async w self Hc Ha).
  unfold psyco_conn_poll_async. rewrite bind_get, Hs. reflexivity.
Qed.

(** X13.  While an open asynchronous connection is connecting
    ([CONN_STATUS_ASYNC]) and its mutex is free, [poll()] never answers
    [complete].  It leaves the whole struct as it was unless
    [PQconnectPoll] answers [PGRES_POLLING_OK]; then it records [equote],
    moves to [CONN_STATUS_SEND_DATESTYLE] and asks for writability.
    [PGRES_POLLING_READING] and [PGRES_POLLING_WRITING] become
    [waitReadable] and [waitWritable]; [PGRES_POLLING_FAILED] becomes an
    [OperationalError] whose text is libpq's error message, unchanged. *)
Theorem connecting_progress (w : env) (self : connectionObject) :
  closed self = 0 -> async self <> 0 -> status self = CONN_STATUS_ASYNC ->
  lock self = false ->
  result (psyco_conn_poll w self) <> complete /\
  (PQconnectPoll w <> PGRES_POLLING_OK -> final (psyco_conn_poll w self) = self) /\
  (PQconnectPoll w = PGRES_POLLING_OK ->
     result (psyco_conn_poll w self) = waitWritable /\
     final (psyco_conn_poll w self) =
       set_status CONN_STATUS_SEND_DATESTYLE
         (set_equote (conn_get_standard_conforming_strings w) self)) /\
  (PQconnectPoll w = PGRES_POLLING_READING ->
     result (psyco_conn_poll w self) = waitReadable) /\
  (PQconnectPoll w = PGRES_POLLING_WRITING ->
     result (psyco_conn_poll w self) = waitWritable) /\
  (PQconnectPoll w = PGRES_POLLING_FAILED ->
     result (psyco_conn_poll w self) =
       Raise (PyErr_SetString OperationalError (PQerrorMessage w))).
Proof.
  intros Hc Ha Hs Hl.
  rewrite (poll_connecting w self Hc Ha Hs), (poll_connect_step_paths w self Hl).
  destruct (PQconnectPoll w); cbn;
    repeat split; intros; try discriminate; try reflexivity; congruence.
Qed.

Lemma connecting_progress_witness :
  closed connecting = 0 /\ async connecting <> 0 /\
  status connecting = CONN_STATUS_ASYNC /\ lock connecting = false /\
  final (psyco_conn_poll failing connecting) = connecting /\
  result (psyco_conn_poll failing connecting) =
    Raise (PyErr_SetString OperationalError (PQerrorMessage failing)).
Proof.
  assert (Ha : async connecting <> 0) by (cbn; lia).
  pose proof (connecting_progress failing connecting eq_refl Ha eq_refl eq_refl)
    as [_ [H1 [_ [_ [_ H2]]]]].
  split; [reflexivity |]. split; [exact Ha |].
  split; [reflexivity |]. split; [reflexivity |].
  split; [apply H1; discriminate | apply H2; reflexivity].
Defined.

(** X14.  [poll()] respects the interpreter lock on every path: it is
    released before the connection mutex is waited for, taken back before
    the function returns or sets its exception (libpq's error message is
    read only after that), and never released or taken twice in a row. *)
Theorem poll_gil_discipline (w : env) (self : connectionObject) :
  lock self = false ->
  gil_discipline false (calls (psyco_conn_poll w self)) = true.
Proof.
  intros Hl. destruct self. cbn in Hl. subst.
  unfold_poll. cbn.
  destruct (Z.eqb_spec closed0 0) as [Hc | Hc]; cbn; [| reflexivity].
  destruct (Z.eqb_spec async0 0) as [Ha | Ha]; cbn.
  - destruct async_cursor0, (queryStatus w); reflexivity.
  - destruct status0, async_cursor0, (PQconnectPoll w), (queryStatus w);
      reflexivity.
Qed.

Lemma poll_gil_discipline_witness :
  lock connecting = false /\
  gil_discipline false (calls (psyco_conn_poll failing connecting)) = true /\
  gil_discipline false (calls (psyco_conn_poll quiet connecting)) = true.
Proof.
  split; [reflexivity |]. split.
  - exact (poll_gil_discipline failing connecting eq_refl).
  - exact (poll_gil_discipline quiet connecting eq_refl).
Defined.

(** X15.  When the mutex is held by someone else, a [poll()] of a
    connecting connection blocks on it with the interpreter lock released,
    before [PQconnectPoll] is called and without touching the struct. *)
Theorem poll_blocks_on_held_mutex (w : env) (self : connectionObject) :
  closed self = 0 -> async self <> 0 -> status self = CONN_STATUS_ASYNC ->
  lock self = true ->
  psyco_conn_poll w self = mkRun Blocked self [Ev_PyEval_SaveThread].
Proof.
  intros Hc Ha Hs Hl.
  rewrite (poll_connecting w self Hc Ha Hs).
  exact (poll_connect_step_blocks w self Hl).
Qed.

Lemma poll_blocks_on_held_mutex_witness :
  lock contended = true /\
  psyco_conn_poll quiet contended = mkRun Blocked contended [Ev_PyEval_SaveThread].
Proof.
  assert (Ha : async contended <> 0) by (cbn; lia).
  split; [reflexivity |].
  exact (poll_blocks_on_held_mutex quiet contended eq_refl Ha eq_refl eq_refl).
Defined.

(** ** More on the stored connection string *)

Lemma string_take_drop (n : nat) (d : string) :
  (string_take n d ++ string_drop n d)%string = d.
Proof.
  revert d. induction n as [| n IH]; intros d; [reflexivity |].
  destruct d as [| c d]; [reflexivity |]. cbn. rewrite IH. reflexivity.
Qed.

Lemma masked_copy_refl (d : string) : masked_copy d d = true.
Proof.
  induction d as [| c d IH]; [reflexivity |].
  cbn. rewrite Ascii.eqb_refl, IH. reflexivity.
Qed.

Lemma masked_copy_append (a b b' : string) :
  masked_copy b b' = true -> masked_copy (a ++ b) (a ++ b') = true.
Proof.
  intros H. induction a as [| c a IH]; [exact H |].
  cbn. rewrite Ascii.eqb_refl, IH. reflexivity.
Qed.

Lemma masked_copy_obfuscate (p : string) : masked_copy p (obfuscate p) = true.
Proof.
  induction p as [| c p IH]; [reflexivity |].
  cbn [obfuscate].
  destruct ((c =? NUL)%char || (c =? " ")%char).
  - apply masked_copy_refl.
  - cbn. rewrite IH, orb_true_r. reflexivity.
Qed.

Lemma masked_copy_length (d d' : string) :
  masked_copy d d' = true -> String.length d' = String.length d.
Proof.
  revert d'. induction d as [| c d IH]; intros [| c' d'] H;
    try discriminate H; [reflexivity |].
  cbn in H. apply andb_true_iff in H. destruct H as [_ H].
  cbn. rewrite (IH d' H). reflexivity.
Qed.

(** X16.  The obfuscation of [connection_setup] only ever overwrites
    characters with 'x': the stored copy has the length of the string
    given and agrees with it at every position that does not hold an 'x';
    a string in which "password" does not occur is stored unchanged. *)
Theorem obfuscation_only_masks (d d' : string) :
  obfuscate_password d = Some d' ->
  masked_copy d d' = true /\
  String.length d' = String.length d /\
  (strstr d "password" = None -> d' = d).
Proof.
  intros H.
  assert (M : masked_copy d d' = true).
  { unfold obfuscate_password in H.
    destruct (strstr d "password") as [pos |].
    - destruct (pos + 9 <=? String.length d)%nat; [| discriminate H].
      injection H as <-.
      rewrite <- (string_take_drop (pos + 9) d) at 1.
      apply masked_copy_append, masked_copy_obfuscate.
    - injection H as <-. apply masked_copy_refl. }
  split; [exact M |]. split; [exact (masked_copy_length d d' M) |].
  intros Hnone. unfold obfuscate_password in H. rewrite Hnone in H.
  injection H as <-. reflexivity.
Qed.

Lemma obfuscation_only_masks_witness :
  masked_copy "user=bob password=s3cret" "user=bob password=xxxxxx" = true /\
  String.length "user=bob password=xxxxxx" = String.length "user=bob password=s3cret".
Proof.
  pose proof (obfuscation_only_masks "user=bob password=s3cret"
                "user=bob password=xxxxxx" eq_refl) as [H1 [H2 _]].
  split; [exact H1 | exact H2].
Defined.

Lemma prefix_length (n h : string) :
  String.prefix n h = true -> (String.length n <= String.length h)%nat.
Proof.
  revert h. induction n as [| a n IH]; intros h H; [cbn; lia |].
  destruct h as [| b h]; [discriminate H |].
  cbn in H. destruct (ascii_dec a b); [| discriminate H].
  cbn. specialize (IH h H). lia.
Qed.

Lemma strstr_bound (h n : string) (p : nat) :
  strstr h n = Some p -> (p + String.length n <= String.length h)%nat.
Proof.
  revert p. induction h as [| c h IH]; intros p H.
  - cbn [strstr] in H. destruct (String.prefix n "") eqn:E; [| discriminate H].
    injection H as <-. apply (prefix_length _ _ E).
  - cbn [strstr] in H.
    destruct (String.prefix n (String c h)) eqn:E.
    + injection H as <-. apply (prefix_length _ _ E).
    + destruct (strstr h n) as [q |]; [| discriminate H].
      injection H as <-. specialize (IH q eq_refl). cbn. lia.
Qed.

(** X17.  The masking loop starts outside the stored copy, a read that C
    leaves undefined, in exactly one case: the first "password" of the
    connection string is its last eight bytes, so that [pos+9] points one
    byte past the terminator.  For every other string the obfuscation is
    well defined. *)
Theorem obfuscation_out_of_bounds (d : string) :
  obfuscate_password d = None <->
  exists pos, strstr d "password" = Some pos /\
              String.length d = (pos + 8)%nat.
Proof.
  unfold obfuscate_password. split.
  - destruct (strstr d "password") as [pos |] eqn:E; [| discriminate].
    pose proof (strstr_bound d "password" pos E) as B. cbn in B.
    destruct (Nat.leb_spec (pos + 9) (String.length d)); [discriminate |].
    intros _. exists pos. split; [reflexivity | lia].
  - intros [pos [E L]]. rewrite E.
    destruct (Nat.leb_spec (pos + 9) (String.length d)); [lia | reflexivity].
Qed.

(** X18.  When the first "password" of the connection string is the key,
    followed by '=' and a value without spaces, [connection_setup] stores
    the string with every character of the value replaced by 'x' and all
    the rest, from the next space on, unchanged.  It does so whether
    [conn_connect] succeeded or not, returning 0 or -1 accordingly, and
    [conn_connect] has been given the unmasked string.  ([conn_connect] is
    assumed to leave [self->dsn] alone.) *)
Theorem connection_setup_masks_value (w : env) (a rc : Z)
    (pre value rest : string) (self : connectionObject) :
  (forall c, dsn (fst (conn_connect w c a)) = dsn c /\
             snd (conn_connect w c a) = rc) ->
  strstr (pre ++ "password=" ++ value ++ rest) "password" =
    Some (String.length pre) ->
  plain_value value = true -> delimited rest = true ->
  result (connection_setup w (pre ++ "password=" ++ value ++ rest) a self) =
    Return (if rc =? 0 then 0 else -1)
  /\
  dsn (final (connection_setup w (pre ++ "password=" ++ value ++ rest) a self)) =
    (pre ++ "password=" ++ mask value ++ rest)%string
  /\
  calls (connection_setup w (pre ++ "password=" ++ value ++ rest) a self) =
    [Ev_pthread_mutex_init;
     Ev_conn_connect (pre ++ "password=" ++ value ++ rest) a].
Proof.
  intros Hkeep Hpos Hv Hr.
  unfold connection_setup. unfold_monad.
  match goal with
  | |- context [conn_connect w ?c a] => destruct (Hkeep c) as [Hd Hrc]
  end.
  rewrite Hd, Hrc. unfold set_lock. cbn [dsn].
  rewrite (obfuscate_password_key_first pre value rest Hpos Hv Hr). cbn.
  destruct (rc =? 0); repeat split; reflexivity.
Qed.

Lemma connection_setup_masks_value_witness :
  result (connection_setup failing "user=bob password=s3cret host=db" 0 blank) =
    Return (-1)
  /\
  dsn (final (connection_setup failing "user=bob password=s3cret host=db" 0 blank)) =
    "user=bob password=xxxxxx host=db".
Proof.
  pose proof (connection_setup_masks_value failing 0 (-1)
                "user=bob " "s3cret" " host=db" blank
                (fun c => conj eq_refl eq_refl) eq_refl eq_refl eq_refl)
    as [H1 [H2 _]].
  split; [exact H1 | exact H2].
Defined.

(** ** Deallocation *)

(** X19.  For a connection that is open, [conn_close] runs exactly once
    in all, whether the object is destroyed directly ([connection_dealloc]
    calls it) or after a [close()] whose [conn_close] has set the [closed]
    flag ([connection_dealloc] then does not call it again).  The mutex is
    destroyed and the object freed at the very end, after that call. *)
Theorem dealloc_closes_once (w w' : env)
    (conn_notice_clean : connectionObject -> connectionObject)
    (self : connectionObject) :
  closed self = 0 ->
  (forall c, closed (conn_close w c) <> 0) ->
  List.length (filter is_D_conn_close
                 (connection_dealloc w' conn_notice_clean self)) = 1%nat
  /\
  (List.length (filter is_Ev_conn_close (calls (psyco_conn_close w self))) +
   List.length (filter is_D_conn_close
                  (connection_dealloc w' conn_notice_clean
                     (final (psyco_conn_close w self)))) = 1)%nat
  /\
  (exists l,
     connection_dealloc w' conn_notice_clean self =
       l ++ [D_pthread_mutex_destroy; D_tp_free] /\
     In D_conn_close l).
Proof.
  intros Hopen Hsets.
  assert (Hclose : psyco_conn_close w self =
                   mkRun (Return Py_None) (conn_close w self) [Ev_conn_close]).
  { unfold psyco_conn_close.
    rewrite (bind_return _ _ _ _ _ (closed_guard_open self Hopen)).
    reflexivity. }
  split; [| split].
  - unfold connection_dealloc. rewrite Hopen. cbn [Z.eqb].
    destruct (is_some (encoding _)), (is_some (critical _)); reflexivity.
  - rewrite Hclose. cbn [calls final filter is_Ev_conn_close List.length].
    unfold connection_dealloc.
    destruct (Z.eqb_spec (closed (conn_close w self)) 0) as [E | _];
      [exfalso; exact (Hsets self E) |].
    destruct (is_some (encoding _)), (is_some (critical _)); reflexivity.
  - unfold connection_dealloc. rewrite Hopen. cbn [Z.eqb].
    destruct (is_some (encoding _)), (is_some (critical _)); cbn [app];
      match goal with
      | |- exists l, ?L = _ /\ _ =>
          exists (firstn (List.length L - 2) L)
      end;
      (split; [reflexivity | right; left; reflexivity]).
Qed.

Lemma dealloc_closes_once_witness :
  closed ready_connection = 0 /\
  (forall c, closed (conn_close closing c) <> 0) /\
  List.length (filter is_D_conn_close
                 (connection_dealloc closing (fun c => c) ready_connection)) = 1%nat
  /\
  (List.length (filter is_Ev_conn_close
                  (calls (psyco_conn_close closing ready_connection))) +
   List.length (filter is_D_conn_close
                  (connection_dealloc closing (fun c => c)
                     (final (psyco_conn_close closing ready_connection)))) = 1)%nat.
Proof.
  assert (Hsets : forall c, closed (conn_close closing c) <> 0)
    by (intros c; cbn; lia).
  pose proof (dealloc_closes_once closing closing (fun c => c) ready_connection
                eq_refl Hsets) as [H1 [H2 _]].
  split; [reflexivity |]. split; [exact Hsets |]. split; [exact H1 | exact H2].
Defined.

(** ** Failures of the collaborators *)

Lemma guards_pass {B} (cmd : string) (k : M B) (self : connectionObject) :
  closed self = 0 -> async self <> 1 ->
  (EXC_IF_CONN_CLOSED ;; EXC_IF_CONN_ASYNC cmd ;; k) self = k self.
Proof.
  intros Hc Ha.
  rewrite (bind_return _ _ _ _ _ (closed_guard_open self Hc)).
  rewrite (bind_return _ _ _ _ _ (async_guard_sync cmd self Ha)).
  reflexivity.
Qed.

(** X20.  No failure of a collaborator is swallowed.  On an open
    synchronous connection [commit()] and [rollback()] return [None]
    exactly when [conn_commit] / [conn_rollback] return a code that is not
    negative, [set_isolation_level] (with a valid level) exactly when
    [conn_switch_isolation_level] does, and [set_client_encoding] exactly
    when [conn_set_client_encoding] returns 0; in every other case the
    method raises.  A failed switch of the isolation level is reported as
    an [OperationalError] that carries libpq's error message. *)
Theorem collaborator_failures_surface (w : env) (self : connectionObject) :
  closed self = 0 -> async self <> 1 ->
  (result (psyco_conn_commit w self) = Return Py_None <->
     0 <= snd (conn_commit w self)) /\
  (snd (conn_commit w self) < 0 ->
     result (psyco_conn_commit w self) = Raise (callee_exception w)) /\
  (result (psyco_conn_rollback w self) = Return Py_None <->
     0 <= snd (conn_rollback w self)) /\
  (snd (conn_rollback w self) < 0 ->
     result (psyco_conn_rollback w self) = Raise (callee_exception w)) /\
  (forall level, 0 <= level <= 2 ->
     (result (psyco_conn_set_isolation_level w level self) = Return Py_None <->
        0 <= snd (conn_switch_isolation_level w self level)) /\
     (snd (conn_switch_isolation_level w self level) < 0 ->
        result (psyco_conn_set_isolation_level w level self) =
          Raise (PyErr_SetString OperationalError (PQerrorMessage w)))) /\
  (forall enc, c_string enc ->
     (result (psyco_conn_set_client_encoding w enc self) = Return Py_None <->
        snd (conn_set_client_encoding w self (normalize_encoding_name enc)) = 0) /\
     (snd (conn_set_client_encoding w self (normalize_encoding_name enc)) <> 0 ->
        result (psyco_conn_set_client_encoding w enc self) =
          Raise (callee_exception w))).
Proof.
  intros Hc Ha.
  split; [| split; [| split; [| split; [| split]]]].
  - unfold psyco_conn_commit. rewrite (guards_pass _ _ self Hc Ha). unfold_monad.
    destruct (Z.ltb_spec (snd (conn_commit w self)) 0); cbn;
      split; intros; try discriminate; try reflexivity; lia.
  - intros H. unfold psyco_conn_commit. rewrite (guards_pass _ _ self Hc Ha).
    unfold_monad.
    destruct (Z.ltb_spec (snd (conn_commit w self)) 0); [reflexivity | lia].
  - unfold psyco_conn_rollback. rewrite (guards_pass _ _ self Hc Ha). unfold_monad.
    destruct (Z.ltb_spec (snd (conn_rollback w self)) 0); cbn;
      split; intros; try discriminate; try reflexivity; lia.
  - intros H. unfold psyco_conn_rollback. rewrite (guards_pass _ _ self Hc Ha).
    unfold_monad.
    destruct (Z.ltb_spec (snd (conn_rollback w self)) 0); [reflexivity | lia].
  - intros level Hlevel.
    assert (Hrange : (level <? 0) || (level >? 2) = false).
    { apply orb_false_iff. split.
      - apply Z.ltb_ge. lia.
      - rewrite Z.gtb_ltb. apply Z.ltb_ge. lia. }
    assert (Hfits : INT_MIN <= level <= INT_MAX)
      by (unfold INT_MIN, INT_MAX; lia).
    rewrite (set_isolation_level_open_sync w level self Hc Ha Hfits), Hrange.
    unfold_monad.
    destruct (Z.ltb_spec (snd (conn_switch_isolation_level w self level)) 0); cbn.
    + split; [split; intros; [discriminate | lia] | reflexivity].
    + split; [split; intros; [assumption | reflexivity] | intros; lia].
  - intros enc Hs.
    rewrite (set_client_encoding_open_sync w enc self Hs Hc Ha). unfold_monad.
    destruct (Z.eqb_spec
                (snd (conn_set_client_encoding w self (normalize_encoding_name enc)))
                0) as [E | E]; cbn.
    + split; [split; intros; [assumption | reflexivity] | intros; contradiction].
    + split; [split; intros; [discriminate | contradiction] | reflexivity].
Qed.

Lemma collaborator_failures_surface_witness :
  closed sync_ready = 0 /\ async sync_ready <> 1 /\
  result (psyco_conn_commit failing sync_ready) =
    Raise (callee_exception failing) /\
  result (psyco_conn_set_isolation_level failing 1 sync_ready) =
    Raise (PyErr_SetString OperationalError (PQerrorMessage failing)) /\
  result (psyco_conn_commit quiet sync_ready) = Return Py_None.
Proof.
  assert (Ha : async sync_ready <> 1) by (cbn; lia).
  pose proof (collaborator_failures_surface failing sync_ready eq_refl Ha)
    as [_ [H1 [_ [_ [H2 _]]]]].
  pose proof (collaborator_failures_surface quiet sync_ready eq_refl Ha)
    as [H3 _].
  split; [reflexivity |]. split; [exact Ha |].
  split; [apply H1; cbn; lia |].
  split; [apply (proj2 (H2 1 ltac:(lia))); cbn; lia |].
  apply (proj2 H3). cbn. lia.
Defined.

(** X21.  [set_client_encoding] is a synchronous-only method too: on an
    open connection with [async] = 1 it fails with [AsyncModeConflict]
    before the name is normalised or anything is called. *)
Theorem set_client_encoding_sync_only (w : env) (enc : string)
    (self : connectionObject) :
  closed self = 0 -> async self = 1 ->
  exists e,
    psyco_conn_set_client_encoding w enc self = mkRun (Raise e) self [] /\
    AsyncModeConflict e.
Proof.
  intros Hc Ha. unfold psyco_conn_set_client_encoding.
  eexists. split.
  - rewrite (bind_return _ _ _ _ _ (closed_guard_open self Hc)).
    apply bind_raise. apply async_guard_async. exact Ha.
  - reflexivity.
Qed.

Lemma set_client_encoding_sync_only_witness :
  closed ready_connection = 0 /\ async ready_connection = 1 /\
  exists e,
    psyco_conn_set_client_encoding quiet "utf8" ready_connection =
      mkRun (Raise e) ready_connection [] /\
    AsyncModeConflict e.
Proof.
  split; [reflexivity |]. split; [reflexivity |].
  exact (set_client_encoding_sync_only quiet "utf8" ready_connection
           eq_refl eq_refl).
Defined.

(** ** A fresh asynchronous connection *)

Lemma connection_setup_flags (w : env) (d : string) (a : Z)
    (self : connectionObject) :
  (forall c, closed (fst (conn_connect w c a)) = closed c /\
             async (fst (conn_connect w c a)) = async c /\
             status (fst (conn_connect w c a)) = status c) ->
  closed (final (connection_setup w d a self)) = 0 /\
  async (final (connection_setup w d a self)) = a /\
  status (final (connection_setup w d a self)) = CONN_STATUS_SETUP.
Proof.
  intros Hkeep.
  set (c0 := set_lock false
               (mkConnection d [] [] 0 a CONN_STATUS_SETUP None None ASYNC_DONE
                  None 0 [] [] None None (datestyle self) (equote self)
                  (isolation_level self) (lock self))).
  destruct (Hkeep c0) as [Hc [Hasync Hs]].
  unfold connection_setup. unfold_monad. fold c0.
  destruct (obfuscate_password (dsn (fst (conn_connect w c0 a))));
    cbn; rewrite ?Hc, ?Hasync, ?Hs; repeat split; reflexivity.
Qed.

(** X22.  Between an asynchronous [connection_setup] and the end of the
    handshake the connection reports itself busy and hands out no cursor:
    when [conn_connect] leaves the flags and the status as
    [connection_setup] has set them, [isexecuting()] answers [True] on the
    new connection and [cursor()] fails with "asynchronous connection
    attempt underway", whatever was in the struct before. *)
Theorem fresh_async_connection_is_busy (w w' : env) (d : string) (a : Z)
    (self : connectionObject) :
  a <> 0 ->
  (forall c, closed (fst (conn_connect w c a)) = closed c /\
             async (fst (conn_connect w c a)) = async c /\
             status (fst (conn_connect w c a)) = status c) ->
  psyco_conn_isexecuting (final (connection_setup w d a self)) = Py_True /\
  (forall name factory,
     result (psyco_conn_cursor w' name factory
               (final (connection_setup w d a self))) =
       Raise (PyErr_SetString OperationalError
                "asynchronous connection attempt underway") /\
     calls (psyco_conn_cursor w' name factory
              (final (connection_setup w d a self))) = []).
Proof.
  intros Ha Hkeep.
  destruct (connection_setup_flags w d a self Hkeep) as [Fc [Fa Fs]].
  split.
  - unfold psyco_conn_isexecuting. rewrite Fa, Fs.
    destruct (Z.eqb_spec a 0); [contradiction | reflexivity].
  - intros name factory. unfold psyco_conn_cursor.
    rewrite (bind_return _ _ _ _ _ (closed_guard_open _ Fc)), bind_get.
    rewrite Fs. split; reflexivity.
Qed.

Lemma fresh_async_connection_is_busy_witness :
  psyco_conn_isexecuting
    (final (connection_setup quiet "dbname=test" 1 closed_connection)) = Py_True.
Proof.
  assert (Ha : (1 <> 0)) by lia.
  exact (proj1 (fresh_async_connection_is_busy quiet quiet "dbname=test" 1
                  closed_connection Ha
                  (fun c => conj eq_refl (conj eq_refl eq_refl)))).
Defined.
